(** * ASRE rating engine: indicators, component scorers and composite score

    A shallow embedding of the scoring code of the ASRE front end
    (the [ASREDemo] component: [std], [normalize], [calculateEMA],
    [calculateMACD], [calculateBollingerBands], [calculateRSI],
    [calculateSharpeRatio], [calculateMaxDrawdown],
    [enhancedSentimentScore], [toStars] and the scoring part of
    [handleSearch]).

    JavaScript numbers are modelled through the interface [Number]: the
    engine is written once over it and instantiated twice,
    - at [R] ([RealNumber]): exact arithmetic, the reading in which the
      specification states its properties (no rounding, no NaN);
    - at [float] ([Binary64]): IEEE 754 binary64, the arithmetic the
      JavaScript engine runs, used to execute the very same definitions
      on concrete inputs.
    Universally quantified statements are proved for the exact instance;
    statements about one given input are also run in binary64.

    Integers that the code only counts with (array lengths, the
    confidence, the analyst counts) are [nat], [Z] and [N]. The text
    formatting of the explanation entries and the ticker symbol are left
    out. *)

From Stdlib Require Import Reals Lra Lia ZArith QArith List Bool.
From Stdlib Require Import PrimFloat Uint63.
From Stdlib Require Import Permutation.
From Stdlib Require String Ascii.
Import ListNotations.

Set Implicit Arguments.

(** ** The number interface *)

Declare Scope num_scope.
Delimit Scope num_scope with num.

Class Number (T : Type) : Type := {
  add : T -> T -> T;
  sub : T -> T -> T;
  mul : T -> T -> T;
  div : T -> T -> T;
  ltb : T -> T -> bool;          (* x < y   *)
  leb : T -> T -> bool;          (* x <= y  *)
  eqb : T -> T -> bool;          (* x === y *)
  Math_max : T -> T -> T;
  Math_min : T -> T -> T;
  Math_abs : T -> T;
  Math_sqrt : T -> T;
  Math_round : T -> T;
  fromZ : Z -> T                 (* an integer literal or an array length *)
}.

Infix "+" := add : num_scope.
Infix "-" := sub : num_scope.
Infix "*" := mul : num_scope.
Infix "/" := div : num_scope.
Infix "<?" := ltb : num_scope.
Infix "<=?" := leb : num_scope.
Infix "=?" := eqb : num_scope.

(** A decimal literal of the source: [num 0.35] is the number nearest to
    35/100 (the quotient of two exactly representable integers). *)
Definition num {T : Type} `{Number T} (q : Q) : T :=
  div (fromZ (Qnum q)) (fromZ (Zpos (Qden q))).
Arguments num {T _} q%_Q.

(** Truthiness of a number: everything but 0 (and NaN). *)
Definition truthy {T : Type} `{Number T} (x : T) : bool :=
  ltb (num 0) x || ltb x (num 0).

(** [arr.map((val, i) => f val i)] *)
Fixpoint imap_from {A B : Type} (f : A -> nat -> B) (i : nat) (l : list A) : list B :=
  match l with
  | [] => []
  | x :: r => f x i :: imap_from f (S i) r
  end.

Definition imap {A B : Type} (f : A -> nat -> B) (l : list A) : list B :=
  imap_from f 0 l.

(** [arr.slice(-n)] *)
Definition slice_last {A : Type} (n : nat) (l : list A) : list A :=
  skipn (length l - n) l.

(** The results of [calculateMACD] and [calculateBollingerBands]. *)
Record Macd (T : Type) : Type := { macd : T; signal : T; histogram : T }.

Record Bands (T : Type) : Type := { upper : T; middle : T; lower : T }.

Section Indicators.

Context {T : Type} `{Number T}.
Local Open Scope num_scope.

(** [arr.length] as a number. *)
Definition len (arr : list T) : T := fromZ (Z.of_nat (length arr)).

(** [arr.reduce((a, b) => a + b, 0)] *)
Definition sum (arr : list T) : T := fold_left (fun a b => a + b) arr (num 0).

(** [Math.pow(x, 2)]: the square. *)
Definition pow2 (x : T) : T := x * x.

(** [a || b] on numbers. *)
Definition or_num (a b : T) : T := if truthy a then a else b.

Definition std (arr : list T) : T :=
  let mean := sum arr / len arr in
  let variance :=
    fold_left (fun a b => a + pow2 (b - mean)) arr (num 0)
    / or_num (len arr - num 1) (num 1) in
  Math_sqrt variance.

Definition normalize (x min max : T) : T :=
  if max =? min then num 0.5
  else Math_max (num 0) (Math_min (num 1) ((x - min) / (max - min))).

(** The loop of [calculateEMA]: [ema] is the running value. *)
Fixpoint ema_loop (k ema : T) (data : list T) : list T :=
  match data with
  | [] => []
  | x :: rest => let ema' := x * k + ema * (num 1 - k) in ema' :: ema_loop k ema' rest
  end.

(** [data] is never empty where the engine calls this (26 points at
    least); the empty case is not reached. *)
Definition calculateEMA (data : list T) (period : T) : list T :=
  let k := num 2 / (period + num 1) in
  match data with
  | [] => []
  | ema :: rest => ema :: ema_loop k ema rest
  end.

Definition calculateMACD (prices : list T) : Macd T :=
  if (length prices <? 26)%nat then {| macd := num 0; signal := num 0; histogram := num 0 |}
  else
    let ema12 := calculateEMA prices (num 12) in
    let ema26 := calculateEMA prices (num 26) in
    let macdLine := imap (fun val i => val - nth i ema26 (num 0)) ema12 in
    let signalLine := calculateEMA macdLine (num 9) in
    let histogram := imap (fun val i => val - nth i signalLine (num 0)) macdLine in
    {| macd := last macdLine (num 0);
       signal := last signalLine (num 0);
       histogram := last histogram (num 0) |}.

Definition calculateBollingerBands (prices : list T) (period : nat) (stdDev : T) : Bands T :=
  if (length prices <? period)%nat then {| upper := num 0; middle := num 0; lower := num 0 |}
  else
    let slice := slice_last period prices in
    let p := fromZ (Z.of_nat period) in
    let sma := sum slice / p in
    let variance := fold_left (fun sum val => sum + pow2 (val - sma)) slice (num 0) / p in
    let stdDeviation := Math_sqrt variance in
    {| upper := sma + stdDev * stdDeviation;
       middle := sma;
       lower := sma - stdDev * stdDeviation |}.

(** One turn of the loop of [calculateRSI] on the pair (gains, losses). *)
Definition rsi_step (prices : list T) (acc : T * T) (i : nat) : T * T :=
  let '(gains, losses) := acc in
  let change := nth i prices (num 0) - nth (i - 1) prices (num 0) in
  if num 0 <? change then (gains + change, losses) else (gains, losses - change).

Definition calculateRSI (prices : list T) (period : nat) : T :=
  if (length prices <? period + 1)%nat then num 50
  else
    let '(gains, losses) :=
      fold_left (rsi_step prices) (seq (length prices - period) period) (num 0, num 0) in
    let p := fromZ (Z.of_nat period) in
    let avgGain := gains / p in
    let avgLoss := losses / p in
    if avgLoss =? num 0 then num 100
    else
      let rs := avgGain / avgLoss in
      num 100 - (num 100 / (num 1 + rs)).

Definition calculateSharpeRatio (returns : list T) (riskFreeRate : T) : T :=
  if (length returns =? 0)%nat then num 0
  else
    let avgReturn := sum returns / len returns in
    let annualizedReturn := avgReturn * num 252 in
    let volatility := std returns * Math_sqrt (num 252) in
    if volatility =? num 0 then num 0
    else (annualizedReturn - riskFreeRate) / volatility.

(** One turn of the loop of [calculateMaxDrawdown] on the pair (maxDD, peak). *)
Definition drawdown_step (acc : T * T) (price : T) : T * T :=
  let '(maxDD, peak) := acc in
  let peak := if peak <? price then price else peak in
  let dd := (peak - price) / peak in
  (if maxDD <? dd then dd else maxDD, peak).

Definition calculateMaxDrawdown (prices : list T) : T :=
  match prices with
  | [] => num 0
  | p0 :: rest => fst (fold_left drawdown_step rest (num 0, p0))
  end.

End Indicators.

(** ** Sentiment aggregator and star rating *)

(** One period of the analyst recommendation trend. *)
Record Recommendation : Type := {
  strongBuy : N;
  buy : N;
  hold : N;
  sell : N;
  strongSell : N
}.

Section Sentiment.

Context {T : Type} `{Number T}.
Local Open Scope num_scope.

(** A count as a number. *)
Definition cnt (n : N) : T := fromZ (Z.of_N n).

(** The body of the [forEach] of [enhancedSentimentScore] on the pair
    (score, count). *)
Definition sentiment_step (acc : T * T) (rec : Recommendation) : T * T :=
  let '(score, count) := acc in
  let '(score, count) :=
    if truthy (cnt (strongBuy rec))
    then (score + cnt (strongBuy rec) * num 2, count + cnt (strongBuy rec))
    else (score, count) in
  let '(score, count) :=
    if truthy (cnt (buy rec))
    then (score + cnt (buy rec) * num 1, count + cnt (buy rec))
    else (score, count) in
  let '(score, count) :=
    if truthy (cnt (sell rec))
    then (score - cnt (sell rec) * num 1, count + cnt (sell rec))
    else (score, count) in
  if truthy (cnt (strongSell rec))
  then (score - cnt (strongSell rec) * num 2, count + cnt (strongSell rec))
  else (score, count).

Definition enhancedSentimentScore (recommendations : list Recommendation) : T :=
  match recommendations with
  | [] => num 0.5
  | _ =>
    let '(score, count) := fold_left sentiment_step recommendations (num 0, num 0) in
    if count =? num 0 then num 0.5
    else
      let raw := score / (count * num 2) in
      Math_max (num 0) (Math_min (num 1) ((raw + num 1) / num 2))
  end.

Definition toStars (x : T) : T :=
  let scaled := Math_max (num 0) (Math_min (num 1) x) in
  Math_round (scaled * num 5 * num 10) / num 10.

End Sentiment.

(** ** The response of the data service, as [handleSearch] reads it

    A field that may be missing (or [null]) is an [option]. *)

Module Quote.
Record t (T : Type) : Type := {
  regularMarketPrice : option T;
  trailingPE : option T;
  priceToBook : option T;
  priceToSalesTrailing12Months : option T;
  marketCap : option T
}.
Definition empty (T : Type) : t T :=
  {| regularMarketPrice := None; trailingPE := None; priceToBook := None;
     priceToSalesTrailing12Months := None; marketCap := None |}.
End Quote.

Module SummaryDetail.
Record t (T : Type) : Type := {
  forwardPE : option T;
  beta : option T
}.
Definition empty (T : Type) : t T := {| forwardPE := None; beta := None |}.
End SummaryDetail.

Module Statistics.
Record t (T : Type) : Type := {
  trailingPE : option T;
  forwardPE : option T;
  priceToBook : option T;
  beta : option T
}.
Definition empty (T : Type) : t T :=
  {| trailingPE := None; forwardPE := None; priceToBook := None; beta := None |}.
End Statistics.

Module FinancialData.
Record t (T : Type) : Type := {
  returnOnEquity : option T;
  debtToEquity : option T;
  freeCashflow : option T;
  earningsGrowth : option T;
  revenueGrowth : option T;
  targetMeanPrice : option T
}.
Definition empty (T : Type) : t T :=
  {| returnOnEquity := None; debtToEquity := None; freeCashflow := None;
     earningsGrowth := None; revenueGrowth := None; targetMeanPrice := None |}.
End FinancialData.

Module Summary.
Record t (T : Type) : Type := {
  summaryDetail : option (SummaryDetail.t T);
  statistics : option (Statistics.t T);
  defaultKeyStatistics : option (Statistics.t T);
  financialData : option (FinancialData.t T);
  (* recommendationTrend?.trend *)
  recommendationTrend : option (list Recommendation)
}.
Definition empty (T : Type) : t T :=
  {| summaryDetail := None; statistics := None; defaultKeyStatistics := None;
     financialData := None; recommendationTrend := None |}.
End Summary.

Module Data.
Record t (T : Type) : Type := {
  quote : option (Quote.t T);
  quoteSummary : option (Summary.t T);
  price : option T;
  marketCap : option T;
  (* the [close] of each row of [historical] *)
  historical : option (list (option T))
}.
End Data.

(** The constants [handleSearch] extracts from the response. *)
Module Fund.
Record t (T : Type) : Type := {
  currentPrice : option T;
  pe : option T;
  forwardPE : option T;
  pb : option T;
  ps : option T;
  beta : T;
  marketCap : option T;
  roe : option T;
  debtToEquity : option T;
  freeCashflow : option T;
  earningsGrowth : option T;
  revenueGrowth : option T;
  targetMeanPrice : option T
}.
End Fund.

(** The technical variables of [handleSearch]. *)
Module Tech.
Record t (T : Type) : Type := {
  momentum12m : T;
  momentum6m : T;
  momentum3m : T;
  rsi : T;
  ma50 : option T;
  ma200 : option T;
  volatility : T;
  sharpeRatio : T;
  maxDrawdown : T;
  macd : Macd T;
  bollingerBands : Bands T
}.
End Tech.

Inductive RiskLabel : Type :=
  | HighRisk               (* "High Risk" *)
  | HighRiskHighReward     (* "High Risk–High Reward" *)
  | Moderate               (* "Moderate" *)
  | Balanced               (* "Balanced" *)
  | Cautious.              (* "Cautious" *)

(** An entry of [explanation]: the label and the number it shows (the
    text formatting is left out). *)
Inductive Note (T : Type) : Type :=
  | NotePE (v : T)
  | NoteFwdPE (v : T)
  | NotePB (v : T)
  | NoteROE (v : T)
  | NoteReturn12M (v : T)
  | NoteRSI (v : T)
  | NoteMACD (bullish : bool)
  | NoteEarningsGrowth (v : T)
  | NoteSentiment (v : T)
  | NoteSharpe (v : T).

(** The object given to [setResult] (without the ticker symbol). *)
Module Rating.
Record t (T : Type) : Type := {
  currentPrice : option T;
  pe : option T;
  pb : option T;
  beta : T;
  marketCap : option T;
  valComp : T;
  growthComp : T;
  momentumComp : T;
  sentimentComp : T;
  riskComp : T;
  score : T;
  stars : T;
  riskLabel : RiskLabel;
  projReturn : T;
  confidence : Z;
  explanation : list (Note T);
  recommendationsCount : nat;
  rsi : T;
  sharpeRatio : T;
  maxDrawdown : T;
  targetMeanPrice : option T;
  macd : Macd T;
  bollingerBands : Bands T;
  ma50 : option T;
  ma200 : option T
}.
End Rating.

(** ** The scoring part of [handleSearch] *)

Section Engine.

Context {T : Type} `{Number T}.
Local Open Scope num_scope.

(** [a || b] where [a] is a field that may be missing. *)
Definition or_else (a b : option T) : option T :=
  match a with
  | Some v => if truthy v then a else b
  | None => b
  end.

(** [a || 1]: the last alternative is a number. *)
Definition or_number (a : option T) (b : T) : T :=
  match a with
  | Some v => if truthy v then v else b
  | None => b
  end.

(** [o || {}] where [o] is an object that may be missing. *)
Definition or_empty {A : Type} (o : option A) (empty : A) : A :=
  match o with
  | Some x => x
  | None => empty
  end.

(** [x !== null && x > 0] *)
Definition known_positive (x : option T) : option T :=
  match x with
  | Some v => if num 0 <? v then Some v else None
  | None => None
  end.

(** [a && b && c] as a condition, on values that are [null] or numbers. *)
Definition truthy_opt (x : option T) : bool :=
  match x with
  | Some v => truthy v
  | None => false
  end.

(** The value of a variable a guard has shown to be truthy. *)
Definition the (x : option T) : T :=
  match x with
  | Some v => v
  | None => num 0
  end.

Definition extract (data : Data.t T) : Fund.t T :=
  let quote := or_empty (Data.quote data) (Quote.empty T) in
  let summary := or_empty (Data.quoteSummary data) (Summary.empty T) in
  let summaryDetail := or_empty (Summary.summaryDetail summary) (SummaryDetail.empty T) in
  let statistics :=
    match Summary.statistics summary with
    | Some s => s
    | None => or_empty (Summary.defaultKeyStatistics summary) (Statistics.empty T)
    end in
  let financialData := or_empty (Summary.financialData summary) (FinancialData.empty T) in
  {| Fund.currentPrice :=
       or_else (or_else (Quote.regularMarketPrice quote) (Data.price data)) None;
     Fund.pe :=
       or_else (or_else (Statistics.trailingPE statistics) (Quote.trailingPE quote)) None;
     Fund.forwardPE :=
       or_else (or_else (Statistics.forwardPE statistics) (SummaryDetail.forwardPE summaryDetail)) None;
     Fund.pb :=
       or_else (or_else (Statistics.priceToBook statistics) (Quote.priceToBook quote)) None;
     Fund.ps := or_else (Quote.priceToSalesTrailing12Months quote) None;
     Fund.beta :=
       or_number (or_else (Statistics.beta statistics) (SummaryDetail.beta summaryDetail)) (num 1);
     Fund.marketCap := or_else (or_else (Quote.marketCap quote) (Data.marketCap data)) None;
     Fund.roe := or_else (FinancialData.returnOnEquity financialData) None;
     Fund.debtToEquity := or_else (FinancialData.debtToEquity financialData) None;
     Fund.freeCashflow := or_else (FinancialData.freeCashflow financialData) None;
     Fund.earningsGrowth := or_else (FinancialData.earningsGrowth financialData) None;
     Fund.revenueGrowth := or_else (FinancialData.revenueGrowth financialData) None;
     Fund.targetMeanPrice := or_else (FinancialData.targetMeanPrice financialData) None |}.

(** [summary.recommendationTrend?.trend || []] *)
Definition recommendationsOf (data : Data.t T) : list Recommendation :=
  let summary := or_empty (Data.quoteSummary data) (Summary.empty T) in
  or_empty (Summary.recommendationTrend summary) [].

(** [data.historical.filter(h => h.close !== null && h.close !== undefined).map(h => h.close)] *)
Definition closesOf (data : Data.t T) : list T :=
  match Data.historical data with
  | Some historical =>
      map the (filter (fun close => match close with Some _ => true | None => false end) historical)
  | None => []
  end.

(** The block guarded by [closes.length > 30], with the initial values of
    the variables when it is skipped. *)
Definition technicals (closes : list T) : Tech.t T :=
  let n := length closes in
  let at_ (i : nat) := nth i closes (num 0) in
  if (30 <? n)%nat then
    let end_ := at_ (n - 1)%nat in
    let dailyReturns :=
      map (fun i => (at_ i - at_ (i - 1)%nat) / at_ (i - 1)%nat) (seq 1 (n - 1)) in
    {| Tech.momentum12m :=
         if (252 <=? n)%nat then (end_ - at_ (n - 252)%nat) / at_ (n - 252)%nat
         else (end_ - at_ 0%nat) / at_ 0%nat;
       Tech.momentum6m :=
         if (126 <=? n)%nat then (end_ - at_ (n - 126)%nat) / at_ (n - 126)%nat else num 0;
       Tech.momentum3m :=
         if (63 <=? n)%nat then (end_ - at_ (n - 63)%nat) / at_ (n - 63)%nat else num 0;
       Tech.rsi := calculateRSI closes 14;
       Tech.macd := calculateMACD closes;
       Tech.bollingerBands := calculateBollingerBands closes 20 (num 2);
       Tech.ma50 :=
         if (50 <=? n)%nat then Some (sum (slice_last 50 closes) / num 50) else None;
       Tech.ma200 :=
         if (200 <=? n)%nat then Some (sum (slice_last 200 closes) / num 200) else None;
       Tech.volatility := std dailyReturns * Math_sqrt (num 252);
       Tech.sharpeRatio := calculateSharpeRatio dailyReturns (num 0.06);
       Tech.maxDrawdown := calculateMaxDrawdown closes |}
  else
    {| Tech.momentum12m := num 0; Tech.momentum6m := num 0; Tech.momentum3m := num 0;
       Tech.rsi := num 50; Tech.ma50 := None; Tech.ma200 := None;
       Tech.volatility := num 0; Tech.sharpeRatio := num 0; Tech.maxDrawdown := num 0;
       Tech.macd := {| macd := num 0; signal := num 0; histogram := num 0 |};
       Tech.bollingerBands := {| upper := num 0; middle := num 0; lower := num 0 |} |}.

(** VALUATION: 30% weight *)
Definition valComp (pe forwardPE pb ps roe : option T) : T :=
  let '(score, count) := (num 0.5, num 0) in
  let '(score, count) :=
    match known_positive pe with
    | Some pe => (score + normalize (num 1 / pe) (num 1 / num 50) (num 1 / num 5) * num 0.35,
                  count + num 0.35)
    | None => (score, count)
    end in
  let '(score, count) :=
    match known_positive forwardPE with
    | Some forwardPE =>
        (score + normalize (num 1 / forwardPE) (num 1 / num 40) (num 1 / num 8) * num 0.15,
         count + num 0.15)
    | None => (score, count)
    end in
  let '(score, count) :=
    match known_positive pb with
    | Some pb => (score + normalize (num 1 / pb) (num 1 / num 8) (num 1 / num 0.8) * num 0.25,
                  count + num 0.25)
    | None => (score, count)
    end in
  let '(score, count) :=
    match known_positive ps with
    | Some ps => (score + normalize (num 1 / ps) (num 1 / num 10) (num 1 / num 0.5) * num 0.15,
                  count + num 0.15)
    | None => (score, count)
    end in
  let '(score, count) :=
    match known_positive roe with
    | Some roe => (score + normalize roe (num 0.05) (num 0.30) * num 0.10, count + num 0.10)
    | None => (score, count)
    end in
  if num 0 <? count then score / (count + (num 1 - count) * num 0.5) else num 0.5.

(** GROWTH: 25% weight *)
Definition growthComp (earningsGrowth revenueGrowth freeCashflow roe : option T) : T :=
  let '(score, count) := (num 0, num 0) in
  let '(score, count) :=
    match earningsGrowth with
    | Some earningsGrowth =>
        (score + normalize earningsGrowth (num (-0.3)) (num 0.5) * num 0.4, count + num 0.4)
    | None => (score, count)
    end in
  let '(score, count) :=
    match revenueGrowth with
    | Some revenueGrowth =>
        (score + normalize revenueGrowth (num (-0.2)) (num 0.4) * num 0.3, count + num 0.3)
    | None => (score, count)
    end in
  let '(score, count) :=
    match known_positive freeCashflow with
    | Some _ => (score + num 0.15, count + num 0.15)
    | None => (score, count)
    end in
  let '(score, count) :=
    match roe with
    | Some roe => (score + normalize roe (num 0) (num 0.35) * num 0.15, count + num 0.15)
    | None => (score, count)
    end in
  if num 0 <? count then score / count else num 0.5.

(** MOMENTUM: 15% weight *)
Definition momentumComp (momentum12m momentum6m momentum3m rsi : T) (macd : Macd T)
    (ma50 ma200 currentPrice targetMeanPrice : option T) : T :=
  let score := num 0 in
  let score := score + normalize momentum12m (num (-0.5)) (num 1.0) * num 0.20 in
  let score := score + normalize momentum6m (num (-0.3)) (num 0.8) * num 0.15 in
  let score := score + normalize momentum3m (num (-0.2)) (num 0.5) * num 0.10 in
  let score := score + normalize rsi (num 20) (num 80) * num 0.20 in
  let score := score + (if num 0 <? histogram macd then num 0.10 else num 0.05) in
  let score :=
    if truthy_opt ma50 && truthy_opt ma200 && truthy_opt currentPrice then
      score + (if (the ma50 <? the currentPrice) && (the ma200 <? the ma50) then num 0.15
               else if (the ma50 <? the currentPrice) || (the ma200 <? the ma50) then num 0.075
               else num 0.025)
    else score + num 0.05 in
  let score :=
    if truthy_opt targetMeanPrice && truthy_opt currentPrice then
      score + normalize ((the targetMeanPrice - the currentPrice) / the currentPrice)
                        (num (-0.3)) (num 0.5) * num 0.05
    else score in
  Math_max (num 0) (Math_min (num 1) score).

(** RISK: 15% weight (subtracted from final score) *)
Definition riskComp (volatility beta maxDrawdown sharpeRatio : T) (debtToEquity : option T) : T :=
  let risk := num 0 in
  let risk :=
    risk + (if truthy volatility then normalize volatility (num 0.1) (num 0.8) else num 0.15)
           * num 0.30 in
  let risk := risk + normalize (Math_abs (beta - num 1)) (num 0) (num 1.5) * num 0.20 in
  let risk := risk + normalize maxDrawdown (num 0) (num 0.6) * num 0.25 in
  let risk :=
    risk + (if num 0 <? sharpeRatio then num 1 - normalize sharpeRatio (num (-1)) (num 3)
            else num 1) * num 0.15 in
  let risk :=
    risk + (match debtToEquity with
            | Some debtToEquity => normalize debtToEquity (num 0) (num 2)
            | None => num 0.5
            end) * num 0.10 in
  Math_max (num 0) (Math_min (num 1) risk).

Definition rawScore (valComp growthComp momentumComp sentimentComp riskComp : T) : T :=
  num 0.30 * valComp + num 0.25 * growthComp + num 0.15 * momentumComp
  + num 0.15 * sentimentComp - num 0.15 * riskComp.

(** Normalize to 0-1 range with slight boost *)
Definition finalScore (rawScore : T) : T :=
  Math_max (num 0) (Math_min (num 1) (rawScore * num 1.2 + num 0.1)).

Definition riskLabelOf (score : T) : RiskLabel :=
  if num 0.85 <=? score then HighRiskHighReward
  else if num 0.70 <=? score then Moderate
  else if num 0.50 <=? score then Balanced
  else if num 0.30 <=? score then Cautious
  else HighRisk.

Definition projReturn (momentum12m growthComp valComp sentimentComp : T)
    (targetMeanPrice currentPrice : option T) : T :=
  let projection :=
    momentum12m * num 0.25 + (growthComp - num 0.5) * num 0.35
    + (valComp - num 0.5) * num 0.30 + (sentimentComp - num 0.5) * num 0.10 in
  let projection :=
    if truthy_opt targetMeanPrice && truthy_opt currentPrice then
      projection * num 0.6
      + ((the targetMeanPrice - the currentPrice) / the currentPrice) * num 0.4
    else projection in
  Math_round (projection * num 100).

Definition known {A : Type} (x : option A) : bool :=
  match x with Some _ => true | None => false end.

Definition confidence (closes : list T) (recommendations : list Recommendation)
    (pe pb earningsGrowth targetMeanPrice : option T) : Z :=
  let conf := 50%Z in
  let conf := if (200 <=? length closes)%nat then (conf + 15)%Z else conf in
  let conf := if (3 <=? length recommendations)%nat then (conf + 10)%Z else conf in
  let conf := if known pe && known pb then (conf + 10)%Z else conf in
  let conf := if known earningsGrowth then (conf + 10)%Z else conf in
  let conf := if known targetMeanPrice then (conf + 5)%Z else conf in
  Z.min 95 conf.

(** [cond ? [note] : []], for the conditional pushes on [explanation]. *)
Definition note_if {A : Type} (cond : bool) (note : A) : list A :=
  if cond then [note] else [].

Definition note_known {A : Type} (x : option T) (note : T -> A) : list A :=
  match x with Some v => [note v] | None => [] end.

Definition explanationOf (f : Fund.t T) (t : Tech.t T) (sentimentComp : T) : list (Note T) :=
  note_known (Fund.pe f) (@NotePE T)
  ++ note_known (Fund.forwardPE f) (@NoteFwdPE T)
  ++ note_known (Fund.pb f) (@NotePB T)
  ++ note_known (Fund.roe f) (@NoteROE T)
  ++ note_if (truthy (Tech.momentum12m t)) (NoteReturn12M (Tech.momentum12m t))
  ++ note_if (truthy (Tech.rsi t)) (NoteRSI (Tech.rsi t))
  ++ note_if (truthy (macd (Tech.macd t))) (NoteMACD T (num 0 <? histogram (Tech.macd t)))
  ++ note_known (Fund.earningsGrowth f) (@NoteEarningsGrowth T)
  ++ [NoteSentiment sentimentComp]
  ++ note_if (truthy (Tech.sharpeRatio t)) (NoteSharpe (Tech.sharpeRatio t)).

(** From the extracted constants, the closing prices and the
    recommendations to the result object. *)
Definition rate (f : Fund.t T) (closes : list T) (recommendations : list Recommendation)
    : Rating.t T :=
  let t := technicals closes in
  let sentiment := enhancedSentimentScore recommendations in
  let valComp := valComp (Fund.pe f) (Fund.forwardPE f) (Fund.pb f) (Fund.ps f) (Fund.roe f) in
  let growthComp :=
    growthComp (Fund.earningsGrowth f) (Fund.revenueGrowth f) (Fund.freeCashflow f) (Fund.roe f) in
  let momentumComp :=
    momentumComp (Tech.momentum12m t) (Tech.momentum6m t) (Tech.momentum3m t) (Tech.rsi t)
                 (Tech.macd t) (Tech.ma50 t) (Tech.ma200 t)
                 (Fund.currentPrice f) (Fund.targetMeanPrice f) in
  let sentimentComp := sentiment in
  let riskComp :=
    riskComp (Tech.volatility t) (Fund.beta f) (Tech.maxDrawdown t) (Tech.sharpeRatio t)
             (Fund.debtToEquity f) in
  let rawScore := rawScore valComp growthComp momentumComp sentimentComp riskComp in
  let score := finalScore rawScore in
  {| Rating.currentPrice := Fund.currentPrice f;
     Rating.pe := Fund.pe f;
     Rating.pb := Fund.pb f;
     Rating.beta := Fund.beta f;
     Rating.marketCap := Fund.marketCap f;
     Rating.valComp := valComp;
     Rating.growthComp := growthComp;
     Rating.momentumComp := momentumComp;
     Rating.sentimentComp := sentimentComp;
     Rating.riskComp := riskComp;
     Rating.score := score;
     Rating.stars := toStars score;
     Rating.riskLabel := riskLabelOf score;
     Rating.projReturn :=
       projReturn (Tech.momentum12m t) growthComp valComp sentimentComp
                  (Fund.targetMeanPrice f) (Fund.currentPrice f);
     Rating.confidence :=
       confidence closes recommendations (Fund.pe f) (Fund.pb f)
                  (Fund.earningsGrowth f) (Fund.targetMeanPrice f);
     Rating.explanation := explanationOf f t sentimentComp;
     Rating.recommendationsCount := length recommendations;
     Rating.rsi := Tech.rsi t;
     Rating.sharpeRatio := Tech.sharpeRatio t;
     Rating.maxDrawdown := Tech.maxDrawdown t;
     Rating.targetMeanPrice := Fund.targetMeanPrice f;
     Rating.macd := Tech.macd t;
     Rating.bollingerBands := Tech.bollingerBands t;
     Rating.ma50 := Tech.ma50 t;
     Rating.ma200 := Tech.ma200 t |}.

(** [handleSearch] from the parsed response to the result: [None] is the
    error "No data found for symbol" (neither [quote] nor
    [quoteSummary]). *)
Definition handleSearch (data : Data.t T) : option (Rating.t T) :=
  if negb (known (Data.quote data)) && negb (known (Data.quoteSummary data)) then None
  else Some (rate (extract data) (closesOf data) (recommendationsOf data)).

End Engine.

(** ** The exact instance: real numbers *)

Definition Rltb (x y : R) : bool := if Rlt_dec x y then true else false.
Definition Rleb (x y : R) : bool := if Rle_dec x y then true else false.
Definition Reqb (x y : R) : bool := if Req_dec_T x y then true else false.

(** [Math.round]: the nearest integer, a tie going up. *)
Definition Rround (x : R) : R := IZR (Int_part (x + / 2)).

#[export] Instance RealNumber : Number R := {|
  add := Rplus;
  sub := Rminus;
  mul := Rmult;
  div := Rdiv;
  ltb := Rltb;
  leb := Rleb;
  eqb := Reqb;
  Math_max := Rmax;
  Math_min := Rmin;
  Math_abs := Rabs;
  Math_sqrt := R_sqrt.sqrt;
  Math_round := Rround;
  fromZ := IZR
|}.

(** ** The executable instance: IEEE 754 binary64 *)

Module F64.
Local Open Scope float_scope.

(** [Math.max]: NaN if an argument is NaN, and +0 above -0. *)
Definition max (a b : float) : float :=
  if PrimFloat.is_nan a then a
  else if PrimFloat.is_nan b then b
  else if PrimFloat.ltb a b then b
  else if PrimFloat.ltb b a then a
  else if PrimFloat.eqb a 0 then PrimFloat.add a b
  else a.

(** [Math.min]: NaN if an argument is NaN, and -0 below +0. *)
Definition min (a b : float) : float :=
  if PrimFloat.is_nan a then a
  else if PrimFloat.is_nan b then b
  else if PrimFloat.ltb a b then a
  else if PrimFloat.ltb b a then b
  else if PrimFloat.eqb a 0 then PrimFloat.opp (PrimFloat.add (PrimFloat.opp a) (PrimFloat.opp b))
  else a.

Definition two52 : float := 4503599627370496.

(** The largest integer not above [x], for [0 <= x < 2^52]: adding and
    removing 2^52 rounds to an integer. *)
Definition floor_pos (x : float) : float :=
  let r := PrimFloat.sub (PrimFloat.add x two52) two52 in
  if PrimFloat.ltb x r then PrimFloat.sub r 1 else r.

Definition floor (x : float) : float :=
  if PrimFloat.ltb (PrimFloat.abs x) two52 then
    if PrimFloat.ltb x 0 then
      let t := floor_pos (PrimFloat.opp x) in
      if PrimFloat.eqb t (PrimFloat.opp x) then x else PrimFloat.opp (PrimFloat.add t 1)
    else floor_pos x
  else x.

(** [Math.round]: the nearest integer, a tie going up; -0 for
    [-0.5 <= x <= -0]. *)
Definition round (x : float) : float :=
  if PrimFloat.ltb (PrimFloat.abs x) two52 then
    if PrimFloat.eqb x 0 then x
    else if PrimFloat.ltb x 0 && PrimFloat.leb (-0.5) x then (-0)
    else
      let f := floor x in
      if PrimFloat.ltb (PrimFloat.sub x f) 0.5 then f else PrimFloat.add f 1
  else x.

(** An integer as a number (exact below 2^53; the engine only uses
    small literals and array lengths). *)
Definition of_Z (z : Z) : float :=
  match z with
  | Z0 => 0
  | Zpos _ => PrimFloat.of_uint63 (Uint63.of_Z z)
  | Zneg p => PrimFloat.opp (PrimFloat.of_uint63 (Uint63.of_Z (Zpos p)))
  end.

End F64.

#[export] Instance Binary64 : Number float := {|
  add := PrimFloat.add;
  sub := PrimFloat.sub;
  mul := PrimFloat.mul;
  div := PrimFloat.div;
  ltb := PrimFloat.ltb;
  leb := PrimFloat.leb;
  eqb := PrimFloat.eqb;
  Math_max := F64.max;
  Math_min := F64.min;
  Math_abs := PrimFloat.abs;
  Math_sqrt := PrimFloat.sqrt;
  Math_round := F64.round;
  fromZ := F64.of_Z
|}.

(** ** The watchlist and the ticker symbol *)

Module Watchlist.
Import Ascii String.

(** The component state [watchlist] and the item "asre_watchlist" of the
    local storage. The item holds the JSON text of an array of strings;
    it is modelled by the array it encodes ([None]: no item). *)
Record Store : Type := {
  watchlist : list string;
  saved : option (list string)
}.

(** The effect run when the component mounts. *)
Definition mount (saved : option (list string)) : Store :=
  {| watchlist := match saved with Some l => l | None => [] end;
     saved := saved |}.

(** [watchlist.includes(sym)] *)
Definition includes (watchlist : list string) (sym : string) : bool :=
  existsb (fun s => String.eqb s sym) watchlist.

Definition addToWatchlist (st : Store) (sym : string) : Store :=
  if negb (includes (watchlist st) sym) then
    let newList := watchlist st ++ [sym] in
    {| watchlist := newList; saved := Some newList |}
  else st.

Definition removeFromWatchlist (st : Store) (sym : string) : Store :=
  let newList := filter (fun s => negb (String.eqb s sym)) (watchlist st) in
  {| watchlist := newList; saved := Some newList |}.

Inductive Action : Type :=
  | Add (sym : string)
  | Remove (sym : string).

Definition step (st : Store) (a : Action) : Store :=
  match a with
  | Add sym => addToWatchlist st sym
  | Remove sym => removeFromWatchlist st sym
  end.

Definition run (st : Store) (actions : list Action) : Store := fold_left step actions st.

(** [sym.endsWith(suffix)] *)
Fixpoint endsWith (sym suffix : string) : bool :=
  if String.eqb sym suffix then true
  else match sym with
       | EmptyString => false
       | String _ rest => endsWith rest suffix
       end.

Definition is_upper (c : ascii) : bool :=
  (65 <=? nat_of_ascii c)%nat && (nat_of_ascii c <=? 90)%nat.

Fixpoint all_upper (sym : string) : bool :=
  match sym with
  | EmptyString => true
  | String c rest => is_upper c && all_upper rest
  end.

(** [sym.match(/^[A-Z]+$/)] as a condition. *)
Definition letters_only (sym : string) : bool :=
  negb (String.eqb sym EmptyString) && all_upper sym.

(** The exchange suffix [handleSearch] gives the trimmed, upper-cased
    ticker before it asks for the data. *)
Definition withExchange (sym : string) : string :=
  if negb (endsWith sym ".NS") && negb (endsWith sym ".BO") && negb (letters_only sym)
  then sym ++ ".NS"
  else sym.

End Watchlist.

(** * Reference definitions

    What the specification says in its own words, to compare the code
    with. *)

Unset Implicit Arguments.
Local Open Scope R_scope.

(** The clamp [Math.max(0, Math.min(1, x))] on real numbers. *)
Definition clamp01 (x : R) : R := Rmax 0 (Rmin 1 x).

(** Sentiment: what one period adds to the running score and to the
    count (+2/+1 per strongBuy, +1/+1 per buy, -1/+1 per sell, -2/+1 per
    strongSell, nothing for hold). *)
Definition period_score (rec : Recommendation) : Z :=
  (2 * Z.of_N (strongBuy rec) + Z.of_N (buy rec)
   - Z.of_N (sell rec) - 2 * Z.of_N (strongSell rec))%Z.

Definition period_count (rec : Recommendation) : Z :=
  (Z.of_N (strongBuy rec) + Z.of_N (buy rec)
   + Z.of_N (sell rec) + Z.of_N (strongSell rec))%Z.

Definition total_score (recs : list Recommendation) : Z :=
  fold_right (fun rec acc => (period_score rec + acc)%Z) 0%Z recs.

Definition total_count (recs : list Recommendation) : Z :=
  fold_right (fun rec acc => (period_count rec + acc)%Z) 0%Z recs.

(** Confidence: the points a condition adds. *)
Definition bonus (cond : bool) (points : Z) : Z := if cond then points else 0%Z.

(** RSI: the price changes of the trailing window, the sum of the
    positive ones (gains) and the sum of the absolute values of the
    negative ones (losses), each divided by the period. *)
Definition Rsum (l : list R) : R := fold_right Rplus 0 l.

Definition change (prices : list R) (i : nat) : R :=
  nth i prices 0 - nth (i - 1) prices 0.

Definition trailing_changes (prices : list R) (period : nat) : list R :=
  map (change prices) (seq (length prices - period) period).

Definition gains_of (changes : list R) : R :=
  Rsum (filter (fun c => Rltb 0 c) changes).

Definition losses_of (changes : list R) : R :=
  Rsum (map Rabs (filter (fun c => Rltb c 0) changes)).

Definition avg_gain (prices : list R) (period : nat) : R :=
  gains_of (trailing_changes prices period) / INR period.

Definition avg_loss (prices : list R) (period : nat) : R :=
  losses_of (trailing_changes prices period) / INR period.

Definition strictly_increasing (prices : list R) : Prop :=
  forall i : nat, (S i < length prices)%nat -> nth i prices 0 < nth (S i) prices 0.

(** The scenario series: 300 closing prices, all equal to 100. *)
Definition flat300 {T : Type} `{Number T} : list T := repeat (num 100) 300.

(** Sample series: fifteen rising and fifteen falling prices. *)
Definition rising15 : list R := [1; 2; 3; 4; 5; 6; 7; 8; 9; 10; 11; 12; 13; 14; 15].

Definition falling15 : list R := [15; 14; 13; 12; 11; 10; 9; 8; 7; 6; 5; 4; 3; 2; 1].

(** A response whose only content is a trailing P/E of 5 in [quote]. *)
Definition quote_pe5 {T : Type} `{Number T} : Data.t T :=
  {| Data.quote :=
       Some {| Quote.regularMarketPrice := None; Quote.trailingPE := Some (num 5);
               Quote.priceToBook := None; Quote.priceToSalesTrailing12Months := None;
               Quote.marketCap := None |};
     Data.quoteSummary := None;
     Data.price := None;
     Data.marketCap := None;
     Data.historical := None |}.

(** A response with an empty [quote] and nothing else: no fundamentals,
    no recommendations, no prices. *)
Definition no_data {T : Type} `{Number T} : Data.t T :=
  {| Data.quote := Some (Quote.empty T);
     Data.quoteSummary := None;
     Data.price := None;
     Data.marketCap := None;
     Data.historical := None |}.

(** What [extract] yields when no fundamental is known (beta defaults
    to 1). *)
Definition no_fundamentals {T : Type} `{Number T} : Fund.t T :=
  {| Fund.currentPrice := None; Fund.pe := None; Fund.forwardPE := None;
     Fund.pb := None; Fund.ps := None; Fund.beta := num 1; Fund.marketCap := None;
     Fund.roe := None; Fund.debtToEquity := None; Fund.freeCashflow := None;
     Fund.earningsGrowth := None; Fund.revenueGrowth := None;
     Fund.targetMeanPrice := None |}.

(** Zero or missing: two readings of a field that are the same, or 0 in
    one response and missing in the other. *)
Definition zero_or_same (a b : option R) : Prop :=
  a = b \/ (a = Some 0 /\ b = None) \/ (a = None /\ b = Some 0).

Definition both {A : Type} (rel : A -> A -> Prop) (a b : option A) : Prop :=
  match a, b with
  | Some x, Some y => rel x y
  | None, None => True
  | _, _ => False
  end.

(** Two responses that differ at most in that the trailing P/E, the
    P/B, the earnings growth, the revenue growth or the beta is 0 in one
    and missing in the other, wherever the response carries them. *)
Definition same_quote (q q' : Quote.t R) : Prop :=
  Quote.regularMarketPrice q = Quote.regularMarketPrice q'
  /\ zero_or_same (Quote.trailingPE q) (Quote.trailingPE q')
  /\ zero_or_same (Quote.priceToBook q) (Quote.priceToBook q')
  /\ Quote.priceToSalesTrailing12Months q = Quote.priceToSalesTrailing12Months q'
  /\ Quote.marketCap q = Quote.marketCap q'.

Definition same_summaryDetail (s s' : SummaryDetail.t R) : Prop :=
  SummaryDetail.forwardPE s = SummaryDetail.forwardPE s'
  /\ zero_or_same (SummaryDetail.beta s) (SummaryDetail.beta s').

Definition same_statistics (s s' : Statistics.t R) : Prop :=
  zero_or_same (Statistics.trailingPE s) (Statistics.trailingPE s')
  /\ Statistics.forwardPE s = Statistics.forwardPE s'
  /\ zero_or_same (Statistics.priceToBook s) (Statistics.priceToBook s')
  /\ zero_or_same (Statistics.beta s) (Statistics.beta s').

Definition same_financialData (f f' : FinancialData.t R) : Prop :=
  FinancialData.returnOnEquity f = FinancialData.returnOnEquity f'
  /\ FinancialData.debtToEquity f = FinancialData.debtToEquity f'
  /\ FinancialData.freeCashflow f = FinancialData.freeCashflow f'
  /\ zero_or_same (FinancialData.earningsGrowth f) (FinancialData.earningsGrowth f')
  /\ zero_or_same (FinancialData.revenueGrowth f) (FinancialData.revenueGrowth f')
  /\ FinancialData.targetMeanPrice f = FinancialData.targetMeanPrice f'.

Definition same_summary (s s' : Summary.t R) : Prop :=
  both same_summaryDetail (Summary.summaryDetail s) (Summary.summaryDetail s')
  /\ both same_statistics (Summary.statistics s) (Summary.statistics s')
  /\ both same_statistics (Summary.defaultKeyStatistics s) (Summary.defaultKeyStatistics s')
  /\ both same_financialData (Summary.financialData s) (Summary.financialData s')
  /\ Summary.recommendationTrend s = Summary.recommendationTrend s'.

Definition zero_for_missing (d d' : Data.t R) : Prop :=
  both same_quote (Data.quote d) (Data.quote d')
  /\ both same_summary (Data.quoteSummary d) (Data.quoteSummary d')
  /\ Data.price d = Data.price d'
  /\ Data.marketCap d = Data.marketCap d'
  /\ Data.historical d = Data.historical d'.

(** A response in which the five metrics have the value [v] wherever the
    response carries them. *)
Definition metrics {T : Type} `{Number T} (v : option T) : Data.t T :=
  {| Data.quote :=
       Some {| Quote.regularMarketPrice := Some (num 250); Quote.trailingPE := v;
               Quote.priceToBook := v; Quote.priceToSalesTrailing12Months := Some (num 3);
               Quote.marketCap := None |};
     Data.quoteSummary :=
       Some {| Summary.summaryDetail :=
                 Some {| SummaryDetail.forwardPE := Some (num 12); SummaryDetail.beta := v |};
               Summary.statistics := None;
               Summary.defaultKeyStatistics :=
                 Some {| Statistics.trailingPE := v; Statistics.forwardPE := None;
                         Statistics.priceToBook := v; Statistics.beta := v |};
               Summary.financialData :=
                 Some {| FinancialData.returnOnEquity := Some (num 0.2);
                         FinancialData.debtToEquity := None;
                         FinancialData.freeCashflow := Some (num 1000);
                         FinancialData.earningsGrowth := v;
                         FinancialData.revenueGrowth := v;
                         FinancialData.targetMeanPrice := Some (num 300) |};
               Summary.recommendationTrend := None |};
     Data.price := None;
     Data.marketCap := None;
     Data.historical := Some [Some (num 248); None; Some (num 250)] |}.

(** A response with 31 closing prices: thirty at 100, then 110. *)
Definition short_history : Data.t R :=
  {| Data.quote := Some (Quote.empty R);
     Data.quoteSummary := None;
     Data.price := None;
     Data.marketCap := None;
     Data.historical := Some (map Some (repeat 100 30 ++ [110])) |}.

(** A response with 252 closing prices: 251 at 100, then 110. *)
Definition long_history : Data.t R :=
  {| Data.quote := Some (Quote.empty R);
     Data.quoteSummary := None;
     Data.price := None;
     Data.marketCap := None;
     Data.historical := Some (map Some (repeat 100 251 ++ [110])) |}.

(** A response with every input the confidence looks at: 200 prices,
    3 recommendation periods, P/E, P/B, earnings growth, target price. *)
Definition well_covered : Data.t R :=
  {| Data.quote :=
       Some {| Quote.regularMarketPrice := Some 250; Quote.trailingPE := Some 20;
               Quote.priceToBook := Some 3; Quote.priceToSalesTrailing12Months := None;
               Quote.marketCap := None |};
     Data.quoteSummary :=
       Some {| Summary.summaryDetail := None;
               Summary.statistics := None;
               Summary.defaultKeyStatistics := None;
               Summary.financialData :=
                 Some {| FinancialData.returnOnEquity := None;
                         FinancialData.debtToEquity := None;
                         FinancialData.freeCashflow := None;
                         FinancialData.earningsGrowth := Some 0.1;
                         FinancialData.revenueGrowth := None;
                         FinancialData.targetMeanPrice := Some 300 |};
               Summary.recommendationTrend :=
                 Some (repeat {| strongBuy := 4; buy := 6; hold := 5; sell := 1;
                                 strongSell := 0 |} 3) |};
     Data.price := None;
     Data.marketCap := None;
     Data.historical := Some (map Some (repeat 100 200)) |}.

(** The order of the risk labels by the score they stand for. *)
Definition label_rank (l : RiskLabel) : nat :=
  match l with
  | HighRisk => 0
  | Cautious => 1
  | Balanced => 2
  | Moderate => 3
  | HighRiskHighReward => 4
  end.

(** A series that falls at every step. *)
Definition strictly_decreasing (prices : list R) : Prop :=
  forall i : nat, (S i < length prices)%nat -> nth (S i) prices 0 < nth i prices 0.

(** The rows of the price history that have a closing price. *)
Definition rows_with_close (historical : list (option R)) : list (option R) :=
  filter (fun close => match close with Some _ => true | None => false end) historical.

(** A series that never falls. *)
Definition non_decreasing (prices : list R) : Prop :=
  forall i : nat, (S i < length prices)%nat -> nth i prices 0 <= nth (S i) prices 0.

(** A period with another hold count. *)
Definition with_hold (h : N) (rec : Recommendation) : Recommendation :=
  {| strongBuy := strongBuy rec; buy := buy rec; hold := h; sell := sell rec;
     strongSell := strongSell rec |}.

(** A metric that is known and positive, else nothing. *)
Definition positive_part (x : option R) : option R :=
  match x with
  | Some v => if Rlt_dec 0 v then Some v else None
  | None => None
  end.

(** * Properties *)

(** ** Reasoning tools for the exact instance *)

Ltac real_ops :=
  unfold num;
  cbn [add sub mul div ltb leb eqb Math_max Math_min Math_abs Math_sqrt Math_round
       fromZ RealNumber Qnum Qden];
  rewrite ?Rdiv_1_r.

Ltac plain t :=
  lazymatch t with
  | context [Rlt_dec _ _] => fail
  | context [Rle_dec _ _] => fail
  | context [Req_dec_T _ _] => fail
  | _ => idtac
  end.

(** Case analysis on every comparison of the goal, innermost first,
    dropping the impossible cases at once. *)
Ltac decide_cmp :=
  unfold Rltb, Rleb, Reqb, Rmax, Rmin in *;
  repeat match goal with
  | |- context [Rlt_dec ?a ?b] =>
      plain a; plain b; destruct (Rlt_dec a b); try (exfalso; lra)
  | |- context [Rle_dec ?a ?b] =>
      plain a; plain b; destruct (Rle_dec a b); try (exfalso; lra)
  | |- context [Req_dec_T ?a ?b] =>
      plain a; plain b; destruct (Req_dec_T a b); try (exfalso; lra)
  end.

(** Case analysis on every comparison of the goal, innermost first. *)
Ltac cases :=
  unfold Rltb, Rleb, Reqb, Rmax, Rmin in *;
  repeat match goal with
  | |- context [Rlt_dec ?a ?b] => plain a; plain b; destruct (Rlt_dec a b)
  | |- context [Rle_dec ?a ?b] => plain a; plain b; destruct (Rle_dec a b)
  | |- context [Req_dec_T ?a ?b] => plain a; plain b; destruct (Req_dec_T a b)
  end.

Lemma Rltb_true (x y : R) : Rltb x y = true <-> x < y.
Proof. unfold Rltb; destruct (Rlt_dec x y); split; intros; try easy. Qed.

Lemma Rltb_false (x y : R) : Rltb x y = false <-> y <= x.
Proof. unfold Rltb; destruct (Rlt_dec x y); split; intros; try easy; lra. Qed.

Lemma Reqb_true (x y : R) : Reqb x y = true <-> x = y.
Proof. unfold Reqb; destruct (Req_dec_T x y); split; intros; try easy. Qed.

Lemma Reqb_false (x y : R) : Reqb x y = false <-> x <> y.
Proof. unfold Reqb; destruct (Req_dec_T x y); split; intros; try easy. Qed.

Lemma truthy_real (x : R) : truthy x = negb (Reqb x 0).
Proof. unfold truthy; real_ops; cases; simpl; try reflexivity; lra. Qed.

(** Evaluation of comparisons and of [normalize] on given numbers. *)
Ltac eval_cmp :=
  repeat match goal with
  | |- context [Rltb ?a ?b] =>
      first [ rewrite (proj2 (Rltb_true a b)) by lra
            | rewrite (proj2 (Rltb_false a b)) by lra ]
  | |- context [Reqb ?a ?b] =>
      first [ rewrite (proj2 (Reqb_true a b)) by lra
            | rewrite (proj2 (Reqb_false a b)) by lra ]
  end.

Lemma truthy_zero : truthy (T := R) 0 = false.
Proof. rewrite truthy_real. unfold Reqb. destruct (Req_dec_T 0 0); [reflexivity | lra]. Qed.

Lemma clamp01_bounds (x : R) : 0 <= clamp01 x <= 1.
Proof. unfold clamp01; cases; lra. Qed.

Lemma clamp01_id (x : R) : 0 <= x <= 1 -> clamp01 x = x.
Proof. intros; unfold clamp01; cases; lra. Qed.

Lemma clamp01_mono (x y : R) : x <= y -> clamp01 x <= clamp01 y.
Proof. intros; unfold clamp01; cases; lra. Qed.

Lemma normalize_real (x mn mx : R) :
  normalize x mn mx = if Req_dec_T mx mn then 1 / 2 else clamp01 ((x - mn) / (mx - mn)).
Proof.
  unfold normalize, clamp01; real_ops; unfold Reqb.
  destruct (Req_dec_T mx mn); [lra | reflexivity].
Qed.

Lemma normalize_bounds (x mn mx : R) : 0 <= normalize x mn mx <= 1.
Proof.
  rewrite normalize_real. destruct (Req_dec_T mx mn); [lra | apply clamp01_bounds].
Qed.

Lemma clamp01_low (x : R) : x <= 0 -> clamp01 x = 0.
Proof. intros; unfold clamp01; cases; lra. Qed.

Lemma clamp01_high (x : R) : 1 <= x -> clamp01 x = 1.
Proof. intros; unfold clamp01; cases; lra. Qed.

Lemma ratio_bounds (a b : R) : 0 <= a <= b -> 0 < b -> 0 <= a / b <= 1.
Proof.
  intros Ha Hb. assert (0 < / b) by now apply Rinv_0_lt_compat.
  assert (b * / b = 1) by (apply Rinv_r; lra).
  unfold Rdiv. split; nra.
Qed.

(** [normalize] inside, below and above a proper range. *)
Lemma normalize_in (x mn mx : R) :
  mn < mx -> mn <= x <= mx -> normalize x mn mx = (x - mn) / (mx - mn).
Proof.
  intros Hr Hx. rewrite normalize_real. destruct (Req_dec_T mx mn); [lra |].
  apply clamp01_id, ratio_bounds; lra.
Qed.

Lemma normalize_low (x mn mx : R) : mn < mx -> x <= mn -> normalize x mn mx = 0.
Proof.
  intros Hr Hx. rewrite normalize_real. destruct (Req_dec_T mx mn); [lra |].
  apply clamp01_low. assert (0 < / (mx - mn)) by (apply Rinv_0_lt_compat; lra).
  unfold Rdiv. nra.
Qed.

Lemma normalize_high (x mn mx : R) : mn < mx -> mx <= x -> normalize x mn mx = 1.
Proof.
  intros Hr Hx. rewrite normalize_real. destruct (Req_dec_T mx mn); [lra |].
  apply clamp01_high. assert (0 < / (mx - mn)) by (apply Rinv_0_lt_compat; lra).
  assert ((mx - mn) * / (mx - mn) = 1) by (apply Rinv_r; lra).
  unfold Rdiv. nra.
Qed.

(** ** C5: [normalize] *)

Lemma normalize_unit (x : R) : normalize x 0 1 = clamp01 x.
Proof.
  rewrite normalize_real. destruct (Req_dec_T 1 0); [lra |].
  f_equal. lra.
Qed.

Lemma normalize_mono (x y mn mx : R) :
  mn <= mx -> x <= y -> normalize x mn mx <= normalize y mn mx.
Proof.
  intros Hr Hxy. rewrite !normalize_real.
  destruct (Req_dec_T mx mn); [lra |].
  apply clamp01_mono.
  assert (0 < mx - mn) by lra.
  unfold Rdiv. apply Rmult_le_compat_r; [| lra].
  left. apply Rinv_0_lt_compat. assumption.
Qed.

Lemma clamp01_interior (y r : R) : 0 < r < 1 -> clamp01 y = r -> y = r.
Proof. unfold clamp01; intros Hr; cases; lra. Qed.

Lemma normalize_fraction (r mn mx : R) :
  mn <> mx -> 0 <= r <= 1 -> normalize (mn + r * (mx - mn)) mn mx = r.
Proof.
  intros Hd Hr. rewrite normalize_real. destruct (Req_dec_T mx mn); [congruence |].
  replace ((mn + r * (mx - mn) - mn) / (mx - mn)) with r by (field; lra).
  now apply clamp01_id.
Qed.

(** Re-application is idempotent for no other range: the two ranges of
    [normalize_spec] are the only ones. *)
Lemma normalize_idempotent_only (mn mx : R) :
  (forall x : R, normalize (normalize x mn mx) mn mx = normalize x mn mx) ->
  mn = mx \/ (mn = 0 /\ mx = 1).
Proof.
  intros Hi. destruct (Req_dec_T mx mn) as [E | E]; [now left | right].
  assert (Hat : forall r : R, 0 < r < 1 -> (r - mn) / (mx - mn) = r).
  { intros r Hr. apply clamp01_interior; [exact Hr |].
    specialize (Hi (mn + r * (mx - mn))).
    rewrite normalize_fraction in Hi by (try congruence; lra).
    rewrite normalize_real in Hi. destruct (Req_dec_T mx mn); [contradiction | exact Hi]. }
  assert (H2 : (1 / 2 - mn) / (mx - mn) = 1 / 2) by (apply Hat; lra).
  assert (H4 : (1 / 4 - mn) / (mx - mn) = 1 / 4) by (apply Hat; lra).
  assert (Hd : mx - mn <> 0) by lra.
  apply (f_equal (fun v => v * (mx - mn))) in H2, H4.
  unfold Rdiv in H2, H4. rewrite Rmult_assoc, Rinv_l, Rmult_1_r in H2, H4 by exact Hd.
  lra.
Qed.

(** C5 (as the code has it): for all real [x], [min], [max],
    [normalize x min max] is 0.5 when [min = max] and otherwise
    [(x - min) / (max - min)] clamped to [0,1], so it always lies in
    [0,1]; re-applying it with the same range gives the same value when
    the range is degenerate ([min = max]) or is the unit range
    ([min = 0], [max = 1]); it is monotonic non-decreasing in [x] when
    [min <= max]. *)
Theorem normalize_spec (x mn mx : R) :
  (mn = mx -> normalize x mn mx = 0.5)
  /\ (mn <> mx -> normalize x mn mx = Rmax 0 (Rmin 1 ((x - mn) / (mx - mn))))
  /\ 0 <= normalize x mn mx <= 1
  /\ (mn = mx \/ (mn = 0 /\ mx = 1) ->
      normalize (normalize x mn mx) mn mx = normalize x mn mx)
  /\ (mn <= mx -> forall y : R, x <= y -> normalize x mn mx <= normalize y mn mx).
Proof.
  repeat split.
  - intros E. rewrite normalize_real. destruct (Req_dec_T mx mn); [lra | congruence].
  - intros E. rewrite normalize_real. destruct (Req_dec_T mx mn); [congruence | reflexivity].
  - apply normalize_bounds.
  - apply normalize_bounds.
  - intros [E | [E0 E1]].
    + rewrite !normalize_real. destruct (Req_dec_T mx mn); [reflexivity | congruence].
    + subst. rewrite !normalize_unit. apply clamp01_id, clamp01_bounds.
  - intros Hr y Hxy. now apply normalize_mono.
Qed.

Lemma normalize_spec_witness :
  normalize (normalize 7 0 1) 0 1 = normalize 7 0 1
  /\ normalize 3 0 10 <= normalize 4 0 10
  /\ normalize 3 4 4 = 0.5
  /\ normalize 3 0 10 = Rmax 0 (Rmin 1 ((3 - 0) / (10 - 0))).
Proof.
  destruct (normalize_spec 7 0 1) as (_ & _ & _ & Hi & _).
  destruct (normalize_spec 3 0 10) as (_ & Hc & _ & _ & Hm).
  destruct (normalize_spec 3 4 4) as (Hd & _).
  repeat split.
  - apply Hi. right. split; reflexivity.
  - apply Hm; lra.
  - apply Hd. reflexivity.
  - apply Hc. lra.
Defined.

(** C5 as stated fails: on the range [0,2] re-applying [normalize]
    changes the value (1 goes to 0.5, then to 0.25), and on the reversed
    range [min = 1], [max = 0] it is decreasing in [x]; in exact
    arithmetic and in binary64 alike. *)
Lemma normalize_not_idempotent_nor_monotone :
  (normalize (normalize 1 0 2) 0 2 <> normalize 1 0 2
   /\ ~ (normalize 0 1 0 <= normalize 1 1 0))
  /\ ((normalize (T := float) 1 0 2 = 0.5)%float
      /\ (normalize (T := float) 0.5 0 2 = 0.25)%float
      /\ (normalize (T := float) 0 1 0 = 1)%float
      /\ (normalize (T := float) 1 1 0 = 0)%float).
Proof.
  split; [split |].
  - rewrite (normalize_in 1 0 2) by lra.
    rewrite (normalize_in ((1 - 0) / (2 - 0)) 0 2) by lra. lra.
  - rewrite !normalize_real. destruct (Req_dec_T 0 1); [lra |].
    rewrite (clamp01_id ((0 - 1) / (0 - 1))) by lra.
    rewrite (clamp01_low ((1 - 1) / (0 - 1))) by lra. lra.
  - repeat split; vm_compute; reflexivity.
Qed.

(** ** C4: the sentiment aggregator *)

Lemma count_step (n : N) (k s c : R) :
  (if truthy (cnt (T := R) n) then (s + cnt n * k, c + cnt n) else (s, c))
  = (s + IZR (Z.of_N n) * k, c + IZR (Z.of_N n)).
Proof.
  rewrite truthy_real. unfold cnt. cbn [fromZ RealNumber].
  unfold Reqb. destruct (Req_dec_T (IZR (Z.of_N n)) 0) as [E | E]; simpl.
  - rewrite E. f_equal; lra.
  - reflexivity.
Qed.

Lemma count_step_minus (n : N) (k s c : R) :
  (if truthy (cnt (T := R) n) then (s - cnt n * k, c + cnt n) else (s, c))
  = (s - IZR (Z.of_N n) * k, c + IZR (Z.of_N n)).
Proof.
  rewrite truthy_real. unfold cnt. cbn [fromZ RealNumber].
  unfold Reqb. destruct (Req_dec_T (IZR (Z.of_N n)) 0) as [E | E]; simpl.
  - rewrite E. f_equal; lra.
  - reflexivity.
Qed.

Lemma sentiment_step_real (s c : Z) (rec : Recommendation) :
  sentiment_step (IZR s, IZR c) rec
  = (IZR (s + period_score rec), IZR (c + period_count rec)).
Proof.
  unfold sentiment_step, period_score, period_count.
  real_ops.
  rewrite (count_step (strongBuy rec)).
  rewrite (count_step (buy rec)).
  rewrite (count_step_minus (sell rec)).
  rewrite (count_step_minus (strongSell rec)).
  rewrite !plus_IZR, !minus_IZR, !plus_IZR, !mult_IZR.
  f_equal; lra.
Qed.

Lemma sentiment_fold_real (recs : list Recommendation) (s c : Z) :
  fold_left sentiment_step recs (IZR s, IZR c)
  = (IZR (s + total_score recs), IZR (c + total_count recs)).
Proof.
  revert s c. induction recs as [| rec recs IH]; intros s c; cbn [fold_left fold_right total_score total_count].
  - now rewrite !Z.add_0_r.
  - rewrite sentiment_step_real, IH.
    fold (total_score recs) (total_count recs).
    f_equal; f_equal; lia.
Qed.

Lemma total_count_nonneg (recs : list Recommendation) : (0 <= total_count recs)%Z.
Proof.
  induction recs as [| rec recs IH]; simpl; [lia |].
  unfold period_count. lia.
Qed.

Lemma sentiment_real (recs : list Recommendation) :
  enhancedSentimentScore recs
  = if (total_count recs =? 0)%Z then 0.5
    else Rmax 0 (Rmin 1 ((IZR (total_score recs) / (IZR (total_count recs) * 2) + 1) / 2)).
Proof.
  destruct recs as [| rec recs].
  - simpl. real_ops. lra.
  - unfold enhancedSentimentScore.
    replace (num (T := R) 0, num (T := R) 0) with (IZR 0, IZR 0)
      by (real_ops; reflexivity).
    rewrite sentiment_fold_real. rewrite !Z.add_0_l.
    real_ops. unfold Reqb.
    destruct (Req_dec_T (IZR (total_count (rec :: recs))) 0) as [E | E].
    + apply eq_IZR in E. rewrite E. simpl. lra.
    + destruct (Z.eqb_spec (total_count (rec :: recs)) 0) as [E0 | E0].
      * exfalso. apply E. now rewrite E0.
      * reflexivity.
Qed.

(** C4: the sentiment aggregator returns 0.5 for the empty list, 1 for a
    single period with strongBuy counts only and 0 for one with
    strongSell counts only (whatever the hold count); in general, with
    score = sum of 2 strongBuy + buy - sell - 2 strongSell and
    count = sum of strongBuy + buy + sell + strongSell over the periods,
    it returns clamp((score / (count * 2) + 1) / 2, 0, 1) when count > 0
    and 0.5 when count = 0. *)
Theorem sentiment_spec :
  enhancedSentimentScore (T := R) [] = 0.5
  /\ (forall (p : positive) (h : N),
        enhancedSentimentScore
          [{| strongBuy := Npos p; buy := 0; hold := h; sell := 0; strongSell := 0 |}] = 1)
  /\ (forall (p : positive) (h : N),
        enhancedSentimentScore
          [{| strongBuy := 0; buy := 0; hold := h; sell := 0; strongSell := Npos p |}] = 0)
  /\ (forall recs : list Recommendation,
        (0 <= total_count recs)%Z
        /\ enhancedSentimentScore recs
           = if (total_count recs =? 0)%Z then 0.5
             else Rmax 0 (Rmin 1 ((IZR (total_score recs) / (IZR (total_count recs) * 2) + 1) / 2))).
Proof.
  split; [| split; [| split]].
  - simpl. real_ops. lra.
  - intros p h. rewrite sentiment_real.
    unfold total_count, total_score, period_count, period_score; simpl.
    assert (Hp : 0 < IZR (Zpos p)) by (apply IZR_lt; lia).
    replace (Zpos p~0) with (2 * Zpos p)%Z by lia.
    rewrite mult_IZR.
    replace ((2 * IZR (Zpos p) / (IZR (Zpos p) * 2) + 1) / 2) with 1 by (field; lra).
    cases; lra.
  - intros p h. rewrite sentiment_real.
    unfold total_count, total_score, period_count, period_score; simpl.
    assert (Hp : 0 < IZR (Zpos p)) by (apply IZR_lt; lia).
    replace (Zneg p~0) with (- (2 * Zpos p))%Z by lia.
    rewrite opp_IZR, mult_IZR.
    replace ((- (2 * IZR (Zpos p)) / (IZR (Zpos p) * 2) + 1) / 2) with 0 by (field; lra).
    cases; lra.
  - intros recs. split; [apply total_count_nonneg | apply sentiment_real].
Qed.

(** ** C6: RSI *)

Lemma gains_nonneg (cs : list R) : 0 <= gains_of cs.
Proof.
  unfold gains_of. induction cs as [| c cs IH]; simpl; [lra |].
  destruct (Rltb 0 c) eqn:E; simpl; [apply Rltb_true in E; lra | assumption].
Qed.

Lemma losses_nonneg (cs : list R) : 0 <= losses_of cs.
Proof.
  unfold losses_of. induction cs as [| c cs IH]; simpl; [lra |].
  destruct (Rltb c 0) eqn:E; simpl; [| assumption].
  pose proof (Rabs_pos c). lra.
Qed.

Lemma rsi_fold (prices : list R) (idxs : list nat) (g l : R) :
  fold_left (rsi_step prices) idxs (g, l)
  = (g + gains_of (map (change prices) idxs), l + losses_of (map (change prices) idxs)).
Proof.
  revert g l. induction idxs as [| i idxs IH]; intros g l; cbn [fold_left map].
  - unfold gains_of, losses_of; simpl. f_equal; lra.
  - replace (rsi_step prices (g, l) i)
      with (if Rltb 0 (change prices i) then (g + change prices i, l)
            else (g, l - change prices i))
      by (unfold rsi_step, change; real_ops; reflexivity).
    unfold gains_of, losses_of in *. cbn [filter].
    destruct (Rltb 0 (change prices i)) eqn:Epos.
    + apply Rltb_true in Epos.
      assert (Eneg : Rltb (change prices i) 0 = false) by (apply Rltb_false; lra).
      rewrite Eneg, IH. simpl. f_equal; lra.
    + apply Rltb_false in Epos. rewrite IH.
      destruct (Rltb (change prices i) 0) eqn:Eneg; simpl.
      * apply Rltb_true in Eneg. rewrite Rabs_left by assumption. f_equal; lra.
      * apply Rltb_false in Eneg. f_equal; lra.
Qed.

Lemma calculateRSI_real (prices : list R) :
  calculateRSI prices 14
  = if (length prices <? 15)%nat then 50
    else if Req_dec_T (avg_loss prices 14) 0 then 100
    else 100 - 100 / (1 + avg_gain prices 14 / avg_loss prices 14).
Proof.
  unfold calculateRSI. cbn [Nat.add].
  destruct (length prices <? 15)%nat; [real_ops; reflexivity |].
  replace (num (T := R) 0, num (T := R) 0) with (0, 0) by (real_ops; reflexivity).
  rewrite rsi_fold. fold (trailing_changes prices 14).
  unfold avg_loss, avg_gain. rewrite !Rplus_0_l.
  replace (INR 14) with 14 by (simpl; lra).
  real_ops. cbn [Z.of_nat Pos.of_succ_nat Pos.succ]. unfold Reqb.
  destruct (Req_dec_T (losses_of (trailing_changes prices 14) / 14) 0); reflexivity.
Qed.

Lemma losses_zero_of_positive (cs : list R) :
  Forall (fun c => 0 < c) cs -> losses_of cs = 0.
Proof.
  unfold losses_of. induction 1 as [| c cs Hc _ IH]; simpl; [reflexivity |].
  assert (E : Rltb c 0 = false) by (apply Rltb_false; lra).
  now rewrite E.
Qed.

Lemma increasing_changes (prices : list R) :
  (15 <= length prices)%nat -> strictly_increasing prices ->
  Forall (fun c => 0 < c) (trailing_changes prices 14).
Proof.
  intros Hlen Hinc. unfold trailing_changes.
  apply Forall_forall. intros c Hc.
  apply in_map_iff in Hc. destruct Hc as (i & <- & Hi).
  apply in_seq in Hi. unfold change.
  specialize (Hinc (i - 1)%nat).
  replace (S (i - 1)) with i in Hinc by lia.
  assert (nth (i - 1) prices 0 < nth i prices 0) by (apply Hinc; lia).
  lra.
Qed.

(** C6: RSI with period 14 always lies in [0,100]; a series of fewer
    than 15 points gives 50; with 15 points or more, a zero average loss
    over the trailing 14 changes gives 100 (so does a strictly
    increasing series), and otherwise the result is
    100 - 100 / (1 + avgGain / avgLoss), where the gains are the sum of
    the positive changes and the losses the sum of the absolute values
    of the negative ones, each divided by the period. *)
Theorem rsi_spec (prices : list R) :
  0 <= calculateRSI prices 14 <= 100
  /\ ((length prices < 15)%nat -> calculateRSI prices 14 = 50)
  /\ ((15 <= length prices)%nat -> avg_loss prices 14 = 0 -> calculateRSI prices 14 = 100)
  /\ ((15 <= length prices)%nat -> strictly_increasing prices -> calculateRSI prices 14 = 100)
  /\ ((15 <= length prices)%nat -> avg_loss prices 14 <> 0 ->
      calculateRSI prices 14 = 100 - 100 / (1 + avg_gain prices 14 / avg_loss prices 14)).
Proof.
  rewrite calculateRSI_real.
  assert (Hg : 0 <= avg_gain prices 14).
  { unfold avg_gain. pose proof (gains_nonneg (trailing_changes prices 14)).
    replace (INR 14) with 14 by (simpl; lra). lra. }
  assert (Hl : 0 <= avg_loss prices 14).
  { unfold avg_loss. pose proof (losses_nonneg (trailing_changes prices 14)).
    replace (INR 14) with 14 by (simpl; lra). lra. }
  split; [| split; [| split; [| split]]].
  - destruct (length prices <? 15)%nat; [lra |].
    destruct (Req_dec_T (avg_loss prices 14) 0) as [E | E]; [lra |].
    assert (Hr : 0 <= avg_gain prices 14 / avg_loss prices 14).
    { unfold Rdiv. apply Rmult_le_pos; [lra |].
      left. apply Rinv_0_lt_compat. lra. }
    assert (Hq : 0 <= 100 / (1 + avg_gain prices 14 / avg_loss prices 14) <= 100).
    { assert (H1 : 0 < 1 + avg_gain prices 14 / avg_loss prices 14) by lra.
      assert (Hi : 0 < / (1 + avg_gain prices 14 / avg_loss prices 14) <= 1).
      { split; [now apply Rinv_0_lt_compat |].
        rewrite <- Rinv_1 at 2. apply Rinv_le_contravar; lra. }
      unfold Rdiv at 1 3. lra. }
    lra.
  - intros Hlen. apply Nat.ltb_lt in Hlen. now rewrite Hlen.
  - intros Hlen E. apply Nat.ltb_ge in Hlen. rewrite Hlen.
    destruct (Req_dec_T (avg_loss prices 14) 0); [reflexivity | contradiction].
  - intros Hlen Hinc. pose proof Hlen as Hlen'. apply Nat.ltb_ge in Hlen'. rewrite Hlen'.
    destruct (Req_dec_T (avg_loss prices 14) 0) as [E | E]; [reflexivity |].
    exfalso. apply E. unfold avg_loss.
    rewrite (losses_zero_of_positive _ (increasing_changes prices Hlen Hinc)).
    unfold Rdiv. apply Rmult_0_l.
  - intros Hlen E. apply Nat.ltb_ge in Hlen. rewrite Hlen.
    destruct (Req_dec_T (avg_loss prices 14) 0); [contradiction | reflexivity].
Qed.

Lemma rising15_increasing : strictly_increasing rising15.
Proof.
  intros i Hi. unfold rising15 in *.
  do 14 (destruct i as [| i]; [simpl; lra |]).
  simpl in Hi. lia.
Qed.

Lemma falling15_avg_loss : avg_loss falling15 14 = 1.
Proof.
  unfold avg_loss, losses_of, trailing_changes, change, falling15.
  cbn [length Nat.sub seq map nth filter].
  decide_cmp. cbn [map Rsum fold_right].
  rewrite !Rabs_left by lra. simpl. lra.
Qed.

Lemma falling15_avg_gain : avg_gain falling15 14 = 0.
Proof.
  unfold avg_gain, gains_of, trailing_changes, change, falling15.
  cbn [length Nat.sub seq map nth filter].
  decide_cmp. cbn [Rsum fold_right]. unfold Rdiv. apply Rmult_0_l.
Qed.

Lemma rising15_avg_loss : avg_loss rising15 14 = 0.
Proof.
  unfold avg_loss.
  rewrite (losses_zero_of_positive _ (increasing_changes rising15 (Nat.le_refl 15)
                                        rising15_increasing)).
  unfold Rdiv. apply Rmult_0_l.
Qed.

Lemma rsi_spec_witness :
  calculateRSI [1; 2] 14 = 50
  /\ calculateRSI rising15 14 = 100
  /\ calculateRSI rising15 14 = 100
  /\ calculateRSI falling15 14 = 100 - 100 / (1 + 0 / 1).
Proof.
  destruct (rsi_spec [1; 2]) as (_ & Hshort & _).
  destruct (rsi_spec rising15) as (_ & _ & Hzero & Hinc & _).
  destruct (rsi_spec falling15) as (_ & _ & _ & _ & Hgen).
  split; [| split; [| split]].
  - apply Hshort. simpl. lia.
  - apply Hzero; [simpl; lia | apply rising15_avg_loss].
  - apply Hinc; [simpl; lia | apply rising15_increasing].
  - rewrite <- falling15_avg_loss at 2. rewrite <- falling15_avg_gain.
    apply Hgen; [simpl; lia |]. rewrite falling15_avg_loss. lra.
Defined.

(** ** C2: a constant series *)

Lemma nth_repeat_in {A : Type} (c d : A) (n i : nat) :
  (i < n)%nat -> nth i (repeat c n) d = c.
Proof.
  revert i. induction n as [| n IH]; intros i Hi; [lia |].
  destruct i as [| i]; simpl; [reflexivity | apply IH; lia].
Qed.

Lemma skipn_repeat_tail {A : Type} (c : A) (n m : nat) :
  skipn m (repeat c n) = repeat c (n - m).
Proof.
  revert m. induction n as [| n IH]; intros m.
  - now destruct m.
  - destruct m as [| m]; simpl; [reflexivity | apply IH].
Qed.

Lemma last_repeat {A : Type} (c d : A) (n : nat) : last (repeat c (S n)) d = c.
Proof.
  induction n as [| n IH]; [reflexivity |].
  change (repeat c (S (S n))) with (c :: repeat c (S n)).
  cbn [last]. exact IH.
Qed.

Section ConstantSeries.

Variable c : R.

Lemma flat_changes (n : nat) :
  (15 <= n)%nat -> Forall (fun d => d = 0) (trailing_changes (repeat c n) 14).
Proof.
  intros Hn. unfold trailing_changes. rewrite repeat_length.
  apply Forall_forall. intros d Hd.
  apply in_map_iff in Hd. destruct Hd as (i & <- & Hi). apply in_seq in Hi.
  unfold change. rewrite !nth_repeat_in by lia. lra.
Qed.

Lemma losses_zero_of_zero (cs : list R) : Forall (fun d => d = 0) cs -> losses_of cs = 0.
Proof.
  unfold losses_of. induction 1 as [| d cs Hd _ IH]; simpl; [reflexivity |].
  assert (E : Rltb d 0 = false) by (apply Rltb_false; lra).
  now rewrite E.
Qed.

Lemma flat_rsi (n : nat) : (15 <= n)%nat -> calculateRSI (repeat c n) 14 = 100.
Proof.
  intros Hn. rewrite calculateRSI_real, repeat_length.
  assert (E : (n <? 15)%nat = false) by (apply Nat.ltb_ge; lia). rewrite E.
  unfold avg_loss. rewrite (losses_zero_of_zero _ (flat_changes n Hn)).
  destruct (Req_dec_T (0 / INR 14) 0) as [_ | N]; [reflexivity |].
  exfalso. apply N. unfold Rdiv. apply Rmult_0_l.
Qed.

Lemma flat_ema_loop (k : R) (n : nat) : ema_loop k c (repeat c n) = repeat c n.
Proof.
  induction n as [| n IH]; cbn [repeat ema_loop]; [reflexivity |].
  replace (add (mul c k) (mul c (sub (num 1) k))) with c by (real_ops; lra).
  cbv zeta. now rewrite IH.
Qed.

Lemma flat_ema (period : R) (n : nat) : calculateEMA (repeat c n) period = repeat c n.
Proof.
  unfold calculateEMA. destruct n as [| n]; cbn [repeat]; [reflexivity |].
  now rewrite flat_ema_loop.
Qed.

End ConstantSeries.

Lemma flat_difference (c : R) (n m j : nat) :
  (j + m <= n)%nat ->
  imap_from (fun (val : R) (i : nat) => sub val (nth i (repeat c n) (num 0))) j (repeat c m)
  = repeat 0 m.
Proof.
  revert j. induction m as [| m IH]; intros j Hj; cbn [repeat imap_from]; [reflexivity |].
  rewrite IH by lia. rewrite nth_repeat_in by lia.
  f_equal. real_ops. lra.
Qed.

Lemma flat_macd (c : R) (n : nat) :
  (26 <= n)%nat ->
  calculateMACD (repeat c n) = {| macd := 0; signal := 0; histogram := 0 |}.
Proof.
  intros Hn. unfold calculateMACD. rewrite repeat_length.
  assert (E : (n <? 26)%nat = false) by (apply Nat.ltb_ge; lia). rewrite E.
  rewrite !flat_ema. unfold imap.
  rewrite (flat_difference c n n 0) by lia.
  rewrite flat_ema.
  rewrite (flat_difference 0 n n 0) by lia.
  destruct n as [| n]; [lia |].
  now rewrite !last_repeat.
Qed.

Lemma flat_sum (c : R) (n : nat) (a : R) :
  fold_left (fun x y : R => add x y) (repeat c n) a = a + INR n * c.
Proof.
  revert a. induction n as [| n IH]; intros a.
  - simpl. lra.
  - cbn [repeat fold_left]. rewrite IH, S_INR. real_ops. lra.
Qed.

Lemma flat_squares (c m : R) (n : nat) :
  m = c -> fold_left (fun s v : R => add s (pow2 (sub v m))) (repeat c n) 0 = 0.
Proof.
  intros ->. induction n as [| n IH]; cbn [repeat fold_left]; [reflexivity |].
  replace (add 0 (pow2 (sub c c))) with 0 by (unfold pow2; real_ops; lra).
  exact IH.
Qed.

Lemma flat_bands (c : R) (n : nat) :
  (20 <= n)%nat ->
  calculateBollingerBands (repeat c n) 20 (num 2)
  = {| upper := c; middle := c; lower := c |}.
Proof.
  intros Hn. unfold calculateBollingerBands, slice_last. rewrite repeat_length.
  assert (E : (n <? 20)%nat = false) by (apply Nat.ltb_ge; lia). rewrite E.
  rewrite skipn_repeat_tail. replace (n - (n - 20))%nat with 20%nat by lia.
  unfold sum. replace (num (T := R) 0) with 0 by (real_ops; reflexivity).
  rewrite flat_sum.
  assert (Em : div (0 + INR 20 * c) (fromZ (Z.of_nat 20)) = c).
  { real_ops. cbn [Z.of_nat Pos.of_succ_nat Pos.succ].
    replace (INR 20) with 20 by (simpl; lra). lra. }
  rewrite Em. rewrite flat_squares by reflexivity.
  real_ops. unfold Rdiv at 1 2. rewrite !Rmult_0_l, sqrt_0.
  f_equal; lra.
Qed.

Lemma flat_drawdown_fold (c : R) (n : nat) :
  fold_left drawdown_step (repeat c n) (0, c) = (0, c).
Proof.
  induction n as [| n IH]; cbn [repeat fold_left]; [reflexivity |].
  replace (drawdown_step (0, c) c) with (0, c); [exact IH |].
  unfold drawdown_step. real_ops.
  assert (E : Rltb c c = false) by (apply Rltb_false; lra). rewrite E.
  replace ((c - c) / c) with 0 by (unfold Rdiv; rewrite Rminus_diag; now rewrite Rmult_0_l).
  assert (E0 : Rltb 0 0 = false) by (apply Rltb_false; lra). now rewrite E0.
Qed.

Lemma flat_drawdown (c : R) (n : nat) : calculateMaxDrawdown (repeat c n) = 0.
Proof.
  destruct n as [| n]; cbn [repeat calculateMaxDrawdown].
  - real_ops. reflexivity.
  - replace (num (T := R) 0) with 0 by (real_ops; reflexivity).
    now rewrite flat_drawdown_fold.
Qed.

Lemma flat300_real : flat300 (T := R) = repeat 100 300.
Proof. unfold flat300. real_ops. reflexivity. Qed.

(** C2 (as the code has it): for 300 closing prices all equal to 100,
    RSI is 100 (the zero-average-loss branch applies, no division by
    zero), the MACD histogram is 0, the Bollinger bands are
    upper = middle = lower = 100 and the max drawdown is 0; in exact
    arithmetic and in binary64 alike. *)
Theorem constant_series_scenario :
  (calculateRSI (T := R) flat300 14 = 100
   /\ histogram (calculateMACD (T := R) flat300) = 0
   /\ calculateBollingerBands (T := R) flat300 20 (num 2)
      = {| upper := 100; middle := 100; lower := 100 |}
   /\ calculateMaxDrawdown (T := R) flat300 = 0)
  /\ (calculateRSI (T := float) flat300 14 = 100%float
      /\ histogram (calculateMACD (T := float) flat300) = 0%float
      /\ calculateBollingerBands (T := float) flat300 20 (num 2)
         = {| upper := 100%float; middle := 100%float; lower := 100%float |}
      /\ calculateMaxDrawdown (T := float) flat300 = 0%float).
Proof.
  split.
  - rewrite flat300_real. repeat split.
    + apply flat_rsi. lia.
    + rewrite flat_macd by lia. reflexivity.
    + apply flat_bands. lia.
    + apply flat_drawdown.
  - repeat split; vm_compute; reflexivity.
Qed.

(** C2 as stated fails: the RSI of the constant series is not 50, in
    exact arithmetic and in binary64 alike. *)
Lemma constant_series_rsi_not_50 :
  calculateRSI (T := R) flat300 14 <> 50
  /\ calculateRSI (T := float) flat300 14 <> 50%float.
Proof.
  split.
  - rewrite flat300_real, flat_rsi by lia. lra.
  - intros E. apply (f_equal (fun x => PrimFloat.eqb x 50)) in E.
    vm_compute in E. discriminate E.
Qed.

(** ** C1: the range of the sub-scores *)

Ltac eval_norm :=
  repeat match goal with
  | |- context [normalize ?x ?a ?b] =>
      first [ rewrite (normalize_in x a b) by lra
            | rewrite (normalize_low x a b) by lra
            | rewrite (normalize_high x a b) by lra ]
  end.

Lemma valComp_pe5 : valComp (T := R) (Some 5) None None None None = 34 / 27.
Proof.
  unfold valComp, known_positive. real_ops. eval_cmp. cbv zeta.
  cbn [fst snd]. eval_cmp. eval_norm. lra.
Qed.

Ltac abstract_norm :=
  repeat match goal with
  | |- context [normalize ?x ?a ?b] =>
      let n := fresh "n" in
      let Hn := fresh "Hn" in
      pose proof (normalize_bounds x a b) as Hn;
      set (n := normalize x a b) in *; clearbody n
  end.

Ltac split_option o :=
  destruct o as [? |]; cbn [known_positive];
  [ try match goal with
        | |- context [if ltb ?a ?b then _ else _] => destruct (ltb a b)
        end
  | ].

Lemma valComp_range (pe forwardPE pb ps roe : option R) :
  1 / 2 <= valComp pe forwardPE pb ps roe <= 3 / 2.
Proof.
  unfold valComp.
  split_option pe; split_option forwardPE; split_option pb; split_option ps;
    split_option roe; cbv zeta beta iota; abstract_norm; real_ops; eval_cmp; lra.
Qed.

Lemma growthComp_bounds (earningsGrowth revenueGrowth freeCashflow roe : option R) :
  0 <= growthComp earningsGrowth revenueGrowth freeCashflow roe <= 1.
Proof.
  unfold growthComp.
  destruct earningsGrowth, revenueGrowth; split_option freeCashflow; destruct roe;
    cbv zeta beta iota; abstract_norm; real_ops; eval_cmp; lra.
Qed.

Lemma clamp_real (x : R) : Math_max (num 0) (Math_min (num 1) x) = clamp01 x.
Proof. unfold clamp01. real_ops. reflexivity. Qed.

Lemma momentumComp_bounds (m12 m6 m3 rsi : R) (macd : Macd R)
    (ma50 ma200 currentPrice targetMeanPrice : option R) :
  0 <= momentumComp m12 m6 m3 rsi macd ma50 ma200 currentPrice targetMeanPrice <= 1.
Proof. unfold momentumComp. cbv zeta. rewrite clamp_real. apply clamp01_bounds. Qed.

Lemma riskComp_bounds (volatility beta maxDrawdown sharpeRatio : R) (debtToEquity : option R) :
  0 <= riskComp volatility beta maxDrawdown sharpeRatio debtToEquity <= 1.
Proof. unfold riskComp. cbv zeta. rewrite clamp_real. apply clamp01_bounds. Qed.

Lemma sentiment_bounds (recs : list Recommendation) :
  0 <= enhancedSentimentScore (T := R) recs <= 1.
Proof.
  rewrite sentiment_real. destruct (total_count recs =? 0)%Z; [lra |].
  apply clamp01_bounds.
Qed.

Lemma rate_components (f : Fund.t R) (closes : list R) (recs : list Recommendation) :
  let t := technicals closes in
  let r := rate f closes recs in
  Rating.valComp r
    = valComp (Fund.pe f) (Fund.forwardPE f) (Fund.pb f) (Fund.ps f) (Fund.roe f)
  /\ Rating.growthComp r
      = growthComp (Fund.earningsGrowth f) (Fund.revenueGrowth f) (Fund.freeCashflow f)
                   (Fund.roe f)
  /\ Rating.momentumComp r
      = momentumComp (Tech.momentum12m t) (Tech.momentum6m t) (Tech.momentum3m t)
                     (Tech.rsi t) (Tech.macd t) (Tech.ma50 t) (Tech.ma200 t)
                     (Fund.currentPrice f) (Fund.targetMeanPrice f)
  /\ Rating.sentimentComp r = enhancedSentimentScore recs
  /\ Rating.riskComp r
      = riskComp (Tech.volatility t) (Fund.beta f) (Tech.maxDrawdown t)
                 (Tech.sharpeRatio t) (Fund.debtToEquity f)
  /\ Rating.score r
      = finalScore (rawScore (Rating.valComp r) (Rating.growthComp r)
                             (Rating.momentumComp r) (Rating.sentimentComp r)
                             (Rating.riskComp r))
  /\ Rating.stars r = toStars (Rating.score r)
  /\ Rating.confidence r
      = confidence closes recs (Fund.pe f) (Fund.pb f) (Fund.earningsGrowth f)
                   (Fund.targetMeanPrice f).
Proof. repeat split. Qed.

Lemma or_else_none (b : option R) : or_else None b = b.
Proof. reflexivity. Qed.

Lemma extract_quote_pe5_all :
  extract (T := R) quote_pe5
  = {| Fund.currentPrice := None; Fund.pe := Some 5; Fund.forwardPE := None;
       Fund.pb := None; Fund.ps := None; Fund.beta := 1; Fund.marketCap := None;
       Fund.roe := None; Fund.debtToEquity := None; Fund.freeCashflow := None;
       Fund.earningsGrowth := None; Fund.revenueGrowth := None;
       Fund.targetMeanPrice := None |}.
Proof.
  unfold extract, quote_pe5, or_empty.
  cbn [Data.quote Data.quoteSummary Data.price Data.marketCap Summary.empty
       Summary.summaryDetail Summary.statistics Summary.defaultKeyStatistics
       Summary.financialData SummaryDetail.empty Statistics.empty FinancialData.empty
       Quote.regularMarketPrice Quote.trailingPE Quote.priceToBook
       Quote.priceToSalesTrailing12Months Quote.marketCap
       Statistics.trailingPE Statistics.forwardPE Statistics.priceToBook Statistics.beta
       SummaryDetail.forwardPE SummaryDetail.beta
       FinancialData.returnOnEquity FinancialData.debtToEquity FinancialData.freeCashflow
       FinancialData.earningsGrowth FinancialData.revenueGrowth FinancialData.targetMeanPrice].
  rewrite !or_else_none. cbn [or_else or_number].
  rewrite truthy_real. real_ops. eval_cmp. reflexivity.
Qed.

(** C1 at the failing input (a response with a trailing P/E of 5 and
    nothing else): the valuation sub-score is 34/27 in exact arithmetic
    and above 1 in binary64, so it is not in [0,1]. *)
Theorem valuation_score_above_one :
  (exists r : Rating.t R,
     handleSearch quote_pe5 = Some r /\ Rating.valComp r = 34 / 27 /\ 1 < Rating.valComp r)
  /\ (exists r : Rating.t float,
        handleSearch quote_pe5 = Some r /\ PrimFloat.ltb 1 (Rating.valComp r) = true).
Proof.
  split.
  - eexists. split; [reflexivity |].
    cbn [rate Rating.valComp]. rewrite extract_quote_pe5_all. cbn [Fund.pe Fund.forwardPE Fund.pb Fund.ps Fund.roe].
    rewrite valComp_pe5. lra.
  - eexists. split; [reflexivity |]. vm_compute. reflexivity.
Qed.

(** The ranges the code does keep: valuation in [0.5, 1.5], the other
    four sub-scores in [0,1]. *)
Lemma sub_score_ranges (data : Data.t R) (r : Rating.t R) :
  handleSearch data = Some r ->
  1 / 2 <= Rating.valComp r <= 3 / 2
  /\ 0 <= Rating.growthComp r <= 1
  /\ 0 <= Rating.momentumComp r <= 1
  /\ 0 <= Rating.sentimentComp r <= 1
  /\ 0 <= Rating.riskComp r <= 1.
Proof.
  unfold handleSearch.
  destruct (negb (known (Data.quote data)) && negb (known (Data.quoteSummary data)));
    [discriminate |].
  intros E. injection E as <-. cbn [rate Rating.valComp Rating.growthComp
    Rating.momentumComp Rating.sentimentComp Rating.riskComp].
  split; [apply valComp_range |].
  split; [apply growthComp_bounds |].
  split; [apply momentumComp_bounds |].
  split; [apply sentiment_bounds | apply riskComp_bounds].
Qed.

(** ** C3: no data at all *)

Lemma valComp_none : valComp (T := R) None None None None None = 1 / 2.
Proof. unfold valComp, known_positive. cbv zeta beta iota. real_ops. eval_cmp. lra. Qed.

Lemma growthComp_none : growthComp (T := R) None None None None = 1 / 2.
Proof. unfold growthComp, known_positive. cbv zeta beta iota. real_ops. eval_cmp. lra. Qed.

Lemma momentumComp_none :
  momentumComp (T := R) 0 0 0 50 {| macd := 0; signal := 0; histogram := 0 |}
               None None None None
  = 1553 / 4620.
Proof.
  unfold momentumComp, truthy_opt. cbv zeta. cbn [andb histogram].
  rewrite clamp_real. real_ops. eval_cmp. eval_norm.
  rewrite clamp01_id; lra.
Qed.

Lemma riskComp_none : riskComp (T := R) 0 1 0 0 None = 49 / 200.
Proof.
  unfold riskComp. cbv zeta. rewrite clamp_real, truthy_zero.
  real_ops. eval_cmp.
  replace (Rabs (1 - 1)) with 0 by (rewrite Rminus_diag, Rabs_R0; reflexivity).
  eval_norm. rewrite clamp01_id; lra.
Qed.

Lemma technicals_nil :
  technicals (T := R) []
  = {| Tech.momentum12m := 0; Tech.momentum6m := 0; Tech.momentum3m := 0;
       Tech.rsi := 50; Tech.ma50 := None; Tech.ma200 := None;
       Tech.volatility := 0; Tech.sharpeRatio := 0; Tech.maxDrawdown := 0;
       Tech.macd := {| macd := 0; signal := 0; histogram := 0 |};
       Tech.bollingerBands := {| upper := 0; middle := 0; lower := 0 |} |}.
Proof. unfold technicals. cbn [length Nat.ltb Nat.leb]. real_ops. reflexivity. Qed.

Lemma rate_no_data :
  let r := rate (T := R) no_fundamentals [] [] in
  Rating.valComp r = 1 / 2
  /\ Rating.growthComp r = 1 / 2
  /\ Rating.sentimentComp r = 1 / 2
  /\ Rating.momentumComp r = 1553 / 4620
  /\ Rating.riskComp r = 49 / 200
  /\ Rating.score r = 413033 / 770000
  /\ Rating.confidence r = 50%Z.
Proof.
  intros r.
  destruct (rate_components no_fundamentals [] []) as
    (Hv & Hg & Hm & Hs & Hr & Hsc & _ & Hc).
  fold r in Hv, Hg, Hm, Hs, Hr, Hsc, Hc.
  rewrite technicals_nil in Hm, Hr.
  cbn [no_fundamentals Fund.pe Fund.forwardPE Fund.pb Fund.ps Fund.roe Fund.beta
       Fund.earningsGrowth Fund.revenueGrowth Fund.freeCashflow Fund.debtToEquity
       Fund.currentPrice Fund.targetMeanPrice
       Tech.momentum12m Tech.momentum6m Tech.momentum3m Tech.rsi Tech.macd Tech.ma50
       Tech.ma200 Tech.volatility Tech.maxDrawdown Tech.sharpeRatio] in Hv, Hg, Hm, Hr, Hc.
  rewrite valComp_none in Hv. rewrite growthComp_none in Hg.
  rewrite momentumComp_none in Hm.
  replace (num (T := R) 1) with 1 in Hr by (real_ops; reflexivity).
  rewrite riskComp_none in Hr.
  assert (Hs' : Rating.sentimentComp r = 1 / 2).
  { rewrite Hs. simpl. real_ops. lra. }
  rewrite Hv, Hg, Hm, Hs', Hr in Hsc.
  repeat split; try assumption.
  rewrite Hsc. unfold finalScore, rawScore. rewrite clamp_real. real_ops.
  rewrite clamp01_id; lra.
Qed.

Lemma extract_no_data : extract (T := R) no_data = no_fundamentals.
Proof.
  unfold extract, no_data, no_fundamentals, or_empty.
  cbn [Data.quote Data.quoteSummary Data.price Data.marketCap Summary.empty Quote.empty
       Summary.summaryDetail Summary.statistics Summary.defaultKeyStatistics
       Summary.financialData SummaryDetail.empty Statistics.empty FinancialData.empty
       Quote.regularMarketPrice Quote.trailingPE Quote.priceToBook
       Quote.priceToSalesTrailing12Months Quote.marketCap
       Statistics.trailingPE Statistics.forwardPE Statistics.priceToBook Statistics.beta
       SummaryDetail.forwardPE SummaryDetail.beta
       FinancialData.returnOnEquity FinancialData.debtToEquity FinancialData.freeCashflow
       FinancialData.earningsGrowth FinancialData.revenueGrowth FinancialData.targetMeanPrice].
  reflexivity.
Qed.

(** C3 (as the code has it): when no fundamental is known, there is no
    recommendation and the price series is empty, the engine returns a
    rating whose valuation, growth and sentiment sub-scores are 0.5,
    whose momentum sub-score is 1553/4620 (about 0.336) and whose risk
    sub-score is 0.245; its confidence is 50 and its final score is the
    rescale raw * 1.2 + 0.1 of the weighted sum of these five values,
    413033/770000 (about 0.536). *)
Theorem no_data_rating (data : Data.t R) :
  known (Data.quote data) || known (Data.quoteSummary data) = true ->
  extract data = no_fundamentals ->
  recommendationsOf data = [] ->
  closesOf data = [] ->
  exists r : Rating.t R,
    handleSearch data = Some r
    /\ Rating.valComp r = 0.5
    /\ Rating.growthComp r = 0.5
    /\ Rating.sentimentComp r = 0.5
    /\ Rating.momentumComp r = 1553 / 4620
    /\ Rating.riskComp r = 0.245
    /\ Rating.confidence r = 50%Z
    /\ Rating.score r
       = (0.30 * 0.5 + 0.25 * 0.5 + 0.15 * (1553 / 4620) + 0.15 * 0.5 - 0.15 * 0.245) * 1.2 + 0.1
    /\ Rating.score r = 413033 / 770000.
Proof.
  intros Hk Hf Hr Hc.
  exists (rate no_fundamentals [] []). split.
  - unfold handleSearch. rewrite Hf, Hr, Hc.
    destruct (known (Data.quote data)), (known (Data.quoteSummary data));
      try reflexivity; discriminate Hk.
  - destruct rate_no_data as (Hv & Hg & Hs & Hm & Hri & Hsc & Hco).
    rewrite Hv, Hg, Hs, Hm, Hri, Hsc, Hco. repeat split; lra.
Qed.

Lemma no_data_rating_witness :
  exists r : Rating.t R,
    handleSearch no_data = Some r
    /\ Rating.valComp r = 0.5
    /\ Rating.growthComp r = 0.5
    /\ Rating.sentimentComp r = 0.5
    /\ Rating.momentumComp r = 1553 / 4620
    /\ Rating.riskComp r = 0.245
    /\ Rating.confidence r = 50%Z
    /\ Rating.score r
       = (0.30 * 0.5 + 0.25 * 0.5 + 0.15 * (1553 / 4620) + 0.15 * 0.5 - 0.15 * 0.245) * 1.2 + 0.1
    /\ Rating.score r = 413033 / 770000.
Proof.
  apply (no_data_rating no_data); [reflexivity | apply extract_no_data | reflexivity ..].
Defined.

(** The same scenario run in binary64. *)
Lemma no_data_rating_binary64 :
  exists r : Rating.t float,
    handleSearch no_data = Some r
    /\ Rating.valComp r = 0.5%float
    /\ Rating.growthComp r = 0.5%float
    /\ Rating.sentimentComp r = 0.5%float
    /\ PrimFloat.ltb (Rating.momentumComp r) 0.5 = true
    /\ PrimFloat.ltb (Rating.riskComp r) 0.5 = true
    /\ Rating.confidence r = 50%Z.
Proof. eexists. split; [reflexivity |]. vm_compute. repeat split. Qed.

(** C3 as stated fails: with nothing known, the momentum and risk
    sub-scores are not 0.5, in exact arithmetic and in binary64 alike. *)
Lemma no_data_rating_not_neutral :
  (exists r : Rating.t R,
     handleSearch no_data = Some r
     /\ Rating.momentumComp r <> 0.5 /\ Rating.riskComp r <> 0.5)
  /\ (exists r : Rating.t float,
        handleSearch no_data = Some r
        /\ Rating.momentumComp r <> 0.5%float /\ Rating.riskComp r <> 0.5%float).
Proof.
  split.
  - exists (rate no_fundamentals [] []). split.
    + unfold handleSearch. now rewrite extract_no_data.
    + destruct rate_no_data as (_ & _ & _ & Hm & Hri & _).
      rewrite Hm, Hri. split; lra.
  - eexists. split; [reflexivity |].
    split; intros E; apply (f_equal (fun x => PrimFloat.eqb x 0.5)) in E;
      vm_compute in E; discriminate E.
Qed.

(** ** C7: composite score and stars *)

Lemma handleSearch_rate (data : Data.t R) (r : Rating.t R) :
  handleSearch data = Some r ->
  r = rate (extract data) (closesOf data) (recommendationsOf data).
Proof.
  unfold handleSearch.
  destruct (negb (known (Data.quote data)) && negb (known (Data.quoteSummary data)));
    [discriminate | congruence].
Qed.

Lemma finalScore_real (raw : R) : finalScore raw = clamp01 (raw * 1.2 + 0.1).
Proof. unfold finalScore. rewrite clamp_real. real_ops. f_equal; lra. Qed.

Lemma toStars_real (x : R) : toStars x = IZR (Int_part (clamp01 x * 50 + / 2)) / 10.
Proof.
  unfold toStars. cbv zeta. rewrite clamp_real. real_ops. unfold Rround.
  do 3 f_equal; lra.
Qed.

Lemma tenths_of_unit (s : R) :
  0 <= s <= 1 ->
  let k := Int_part (s * 50 + / 2) in
  (0 <= k <= 50)%Z /\ s * 5 - 0.05 < IZR k / 10 <= s * 5 + 0.05.
Proof.
  intros Hs k. destruct (base_Int_part (s * 50 + / 2)) as [Hle Hgt]. fold k in Hle, Hgt.
  repeat split.
  - assert (H : (-1 < k)%Z) by (apply lt_IZR; lra). lia.
  - assert (H : (k < 51)%Z) by (apply lt_IZR; lra). lia.
  - lra.
  - lra.
Qed.

(** C7: the final score is clamp(raw * 1.2 + 0.1, 0, 1) with
    raw = 0.30 valuation + 0.25 growth + 0.15 momentum + 0.15 sentiment
    - 0.15 risk over the five sub-scores of the rating; the star rating is
    the score times 5 rounded to one decimal: k/10 for an integer k from
    0 to 50, within 0.05 of five times the score. *)
Theorem composite_score_spec (data : Data.t R) (r : Rating.t R) :
  handleSearch data = Some r ->
  let raw :=
    0.30 * Rating.valComp r + 0.25 * Rating.growthComp r + 0.15 * Rating.momentumComp r
    + 0.15 * Rating.sentimentComp r - 0.15 * Rating.riskComp r in
  Rating.score r = Rmax 0 (Rmin 1 (raw * 1.2 + 0.1))
  /\ 0 <= Rating.score r <= 1
  /\ exists k : Z,
       (0 <= k <= 50)%Z
       /\ Rating.stars r = IZR k / 10
       /\ k = Int_part (Rating.score r * 5 * 10 + 0.5)
       /\ Rating.score r * 5 - 0.05 < Rating.stars r <= Rating.score r * 5 + 0.05
       /\ 0 <= Rating.stars r <= 5.
Proof.
  intros E raw. apply handleSearch_rate in E.
  destruct (rate_components (extract data) (closesOf data) (recommendationsOf data))
    as (_ & _ & _ & _ & _ & Hsc & Hst & _).
  rewrite <- E in Hsc, Hst.
  assert (Hscore : Rating.score r = clamp01 (raw * 1.2 + 0.1)).
  { rewrite Hsc, finalScore_real. unfold rawScore, raw. real_ops. do 2 f_equal; lra. }
  assert (Hb : 0 <= Rating.score r <= 1) by (rewrite Hscore; apply clamp01_bounds).
  split; [exact Hscore |]. split; [exact Hb |].
  exists (Int_part (Rating.score r * 50 + / 2)).
  destruct (tenths_of_unit (Rating.score r) Hb) as (Hk & Hnear).
  assert (Hstars : Rating.stars r = IZR (Int_part (Rating.score r * 50 + / 2)) / 10).
  { rewrite Hst, toStars_real. now rewrite (clamp01_id _ Hb). }
  split; [exact Hk |]. split; [exact Hstars |].
  split; [f_equal; lra |].
  split; [rewrite Hstars; exact Hnear |].
  rewrite Hstars.
  assert (0 <= IZR (Int_part (Rating.score r * 50 + / 2)) <= 50)
    by (split; [apply (IZR_le 0) | apply (IZR_le _ 50)]; lia).
  lra.
Qed.

Lemma composite_score_spec_witness :
  exists r : Rating.t R,
    handleSearch no_data = Some r
    /\ 0 <= Rating.score r <= 1
    /\ exists k : Z, (0 <= k <= 50)%Z /\ Rating.stars r = IZR k / 10.
Proof.
  exists (rate (extract no_data) (closesOf no_data) (recommendationsOf no_data)).
  destruct (composite_score_spec no_data _ eq_refl) as (_ & Hb & k & Hk & Hs & _).
  split; [reflexivity |]. split; [exact Hb |].
  exists k. split; assumption.
Defined.

(** ** C8: confidence *)

(** C8: the confidence is 50 plus 15 for 200 or more prices, 10 for 3 or
    more recommendation periods, 10 when P/E and P/B are both known, 10
    when the earnings growth is known and 5 when there is a target
    price, capped at 95; an integer between 50 and 95. *)
Theorem confidence_spec (data : Data.t R) (r : Rating.t R) :
  handleSearch data = Some r ->
  let f := extract data in
  Rating.confidence r
  = Z.min 95
      (50 + bonus (200 <=? length (closesOf data))%nat 15
          + bonus (3 <=? length (recommendationsOf data))%nat 10
          + bonus (known (Fund.pe f) && known (Fund.pb f)) 10
          + bonus (known (Fund.earningsGrowth f)) 10
          + bonus (known (Fund.targetMeanPrice f)) 5)%Z
  /\ (50 <= Rating.confidence r <= 95)%Z.
Proof.
  intros E f. apply handleSearch_rate in E. subst r.
  cbn [rate Rating.confidence]. fold f. unfold confidence, bonus.
  destruct (200 <=? length (closesOf data))%nat,
           (3 <=? length (recommendationsOf data))%nat,
           (known (Fund.pe f)), (known (Fund.pb f)),
           (known (Fund.earningsGrowth f)), (known (Fund.targetMeanPrice f));
    cbn [andb]; split; lia.
Qed.

Lemma or_else_value (v : R) (b : option R) : v <> 0 -> or_else (Some v) b = Some v.
Proof.
  intros Hv. cbn [or_else]. rewrite truthy_real.
  now rewrite (proj2 (Reqb_false v 0) Hv).
Qed.

Lemma confidence_spec_witness :
  (exists r : Rating.t R, handleSearch no_data = Some r /\ Rating.confidence r = 50%Z)
  /\ (exists r : Rating.t R,
        handleSearch well_covered = Some r /\ Rating.confidence r = 95%Z).
Proof.
  split.
  - exists (rate (extract no_data) (closesOf no_data) (recommendationsOf no_data)).
    split; [reflexivity |].
    destruct (confidence_spec no_data _ eq_refl) as (Hc & _).
    etransitivity; [exact Hc | reflexivity].
  - exists (rate (extract well_covered) (closesOf well_covered)
                 (recommendationsOf well_covered)).
    split; [reflexivity |].
    destruct (confidence_spec well_covered _ eq_refl) as (Hc & _).
    etransitivity; [exact Hc |].
    unfold extract, well_covered, or_empty.
    cbn [Data.quote Data.quoteSummary Data.price Data.marketCap
         Summary.summaryDetail Summary.statistics Summary.defaultKeyStatistics
         Summary.financialData SummaryDetail.empty Statistics.empty
         Quote.regularMarketPrice Quote.trailingPE Quote.priceToBook
         Quote.priceToSalesTrailing12Months Quote.marketCap
         Statistics.trailingPE Statistics.forwardPE Statistics.priceToBook Statistics.beta
         SummaryDetail.forwardPE SummaryDetail.beta
         FinancialData.returnOnEquity FinancialData.debtToEquity FinancialData.freeCashflow
         FinancialData.earningsGrowth FinancialData.revenueGrowth
         FinancialData.targetMeanPrice
         Fund.pe Fund.pb Fund.earningsGrowth Fund.targetMeanPrice].
    rewrite !or_else_none. rewrite !or_else_value by lra.
    reflexivity.
Defined.

(** ** C9: a metric that is 0 and a metric that is missing *)

Lemma zero_or_same_refl (a : option R) : zero_or_same a a.
Proof. now left. Qed.

Lemma or_else_zero (a a' b : option R) :
  zero_or_same a a' -> or_else a b = or_else a' b.
Proof.
  intros [-> | [[-> ->] | [-> ->]]]; [reflexivity | |];
    cbn [or_else]; now rewrite truthy_zero.
Qed.

Lemma or_else_zero_null (a a' b b' : option R) :
  zero_or_same a a' -> zero_or_same b b' ->
  or_else (or_else a b) None = or_else (or_else a' b') None.
Proof.
  intros Ha Hb. rewrite (or_else_zero a a' b Ha).
  destruct a' as [v |]; cbn [or_else].
  - destruct (truthy v); [reflexivity | now apply or_else_zero].
  - now apply or_else_zero.
Qed.

Lemma or_number_zero (a a' b b' : option R) (x : R) :
  zero_or_same a a' -> zero_or_same b b' ->
  or_number (or_else a b) x = or_number (or_else a' b') x.
Proof.
  intros Ha Hb. rewrite (or_else_zero a a' b Ha).
  assert (Hn : or_number b x = or_number b' x).
  { destruct Hb as [-> | [[-> ->] | [-> ->]]]; [reflexivity | |];
      cbn [or_number]; now rewrite truthy_zero. }
  destruct a' as [v |]; cbn [or_else]; [| exact Hn].
  destruct (truthy v); [reflexivity | exact Hn].
Qed.

Lemma or_empty_both {A : Type} (rel : A -> A -> Prop) (a b : option A) (e : A) :
  both rel a b -> rel e e -> rel (or_empty a e) (or_empty b e).
Proof. destruct a, b; cbn [both or_empty]; intros; tauto. Qed.

Lemma both_known {A : Type} (rel : A -> A -> Prop) (a b : option A) :
  both rel a b -> known a = known b.
Proof. destruct a, b; cbn [both known]; intros; tauto. Qed.

Lemma same_quote_empty : same_quote (Quote.empty R) (Quote.empty R).
Proof. repeat split; apply zero_or_same_refl. Qed.

Lemma same_summaryDetail_empty : same_summaryDetail (SummaryDetail.empty R) (SummaryDetail.empty R).
Proof. repeat split; apply zero_or_same_refl. Qed.

Lemma same_statistics_empty : same_statistics (Statistics.empty R) (Statistics.empty R).
Proof. repeat split; apply zero_or_same_refl. Qed.

Lemma same_financialData_empty : same_financialData (FinancialData.empty R) (FinancialData.empty R).
Proof. repeat split; apply zero_or_same_refl. Qed.

Lemma same_summary_empty : same_summary (Summary.empty R) (Summary.empty R).
Proof. repeat split. Qed.

Lemma extract_zero_for_missing (d d' : Data.t R) :
  zero_for_missing d d' -> extract d = extract d'.
Proof.
  intros (Hq & Hs & Hp & Hm & _).
  apply or_empty_both with (e := Quote.empty R) in Hq; [| apply same_quote_empty].
  apply or_empty_both with (e := Summary.empty R) in Hs; [| apply same_summary_empty].
  unfold extract. cbv zeta.
  set (q := or_empty (Data.quote d) (Quote.empty R)) in *.
  set (q' := or_empty (Data.quote d') (Quote.empty R)) in *.
  set (s := or_empty (Data.quoteSummary d) (Summary.empty R)) in *.
  set (s' := or_empty (Data.quoteSummary d') (Summary.empty R)) in *.
  destruct Hs as (Hsd & Hst & Hdk & Hfd & _).
  apply or_empty_both with (e := SummaryDetail.empty R) in Hsd;
    [| apply same_summaryDetail_empty].
  apply or_empty_both with (e := Statistics.empty R) in Hdk;
    [| apply same_statistics_empty].
  apply or_empty_both with (e := FinancialData.empty R) in Hfd;
    [| apply same_financialData_empty].
  set (sd := or_empty (Summary.summaryDetail s) _) in *.
  set (sd' := or_empty (Summary.summaryDetail s') _) in *.
  set (fd := or_empty (Summary.financialData s) _) in *.
  set (fd' := or_empty (Summary.financialData s') _) in *.
  set (st := match Summary.statistics s with
             | Some x => x
             | None => or_empty (Summary.defaultKeyStatistics s) (Statistics.empty R)
             end).
  set (st' := match Summary.statistics s' with
              | Some x => x
              | None => or_empty (Summary.defaultKeyStatistics s') (Statistics.empty R)
              end).
  assert (Hstat : same_statistics st st').
  { unfold st, st'.
    destruct (Summary.statistics s), (Summary.statistics s'); cbn [both] in Hst;
      try contradiction; assumption. }
  clearbody q q' sd sd' fd fd' st st'.
  destruct Hq as (Hq1 & Hq2 & Hq3 & Hq4 & Hq5).
  destruct Hsd as (Hsd1 & Hsd2).
  destruct Hstat as (Hst1 & Hst2 & Hst3 & Hst4).
  destruct Hfd as (Hfd1 & Hfd2 & Hfd3 & Hfd4 & Hfd5 & Hfd6).
  rewrite Hq1, Hq4, Hq5, Hsd1, Hst2, Hfd1, Hfd2, Hfd3, Hfd6, Hp, Hm.
  f_equal.
  - now apply or_else_zero_null.
  - now apply or_else_zero_null.
  - now apply or_number_zero.
  - now apply or_else_zero.
  - now apply or_else_zero.
Qed.

(** C9: two responses that differ only in that the trailing P/E, the
    P/B, the earnings growth, the revenue growth or the beta is 0 in one
    and missing in the other get the same result: the extraction by [||]
    turns a 0 into [null] (and a 0 or missing beta into 1). *)
Theorem zero_scored_as_missing (d d' : Data.t R) :
  zero_for_missing d d' -> handleSearch d = handleSearch d'.
Proof.
  intros Hz. pose proof (extract_zero_for_missing d d' Hz) as He.
  destruct Hz as (Hq & Hs & _ & _ & Hh).
  unfold handleSearch. rewrite He.
  rewrite (both_known _ _ _ Hq), (both_known _ _ _ Hs).
  replace (closesOf d') with (closesOf d) by (unfold closesOf; now rewrite Hh).
  replace (recommendationsOf d') with (recommendationsOf d).
  - reflexivity.
  - unfold recommendationsOf.
    apply or_empty_both with (e := Summary.empty R) in Hs; [| apply same_summary_empty].
    destruct Hs as (_ & _ & _ & _ & Hr). now rewrite Hr.
Qed.

Lemma zero_scored_as_missing_witness :
  handleSearch (metrics (Some 0)) = handleSearch (metrics None).
Proof.
  apply zero_scored_as_missing.
  unfold zero_for_missing, metrics; cbn.
  repeat split; right; left; split; reflexivity.
Defined.

(** The same two responses run in binary64, for 0 and for -0. *)
Lemma zero_scored_as_missing_binary64 :
  handleSearch (metrics (Some 0%float)) = handleSearch (metrics None)
  /\ handleSearch (metrics (Some (-0)%float)) = handleSearch (metrics None).
Proof. split; vm_compute; reflexivity. Qed.

(** ** C10: the momentum windows *)

Lemma nth_pred_last {A : Type} (l : list A) (d : A) : nth (length l - 1) l d = last l d.
Proof.
  induction l as [| x l IH]; [reflexivity |].
  destruct l as [| y l]; [reflexivity |].
  cbn [length Nat.sub] in *. rewrite Nat.sub_0_r in IH.
  cbn [nth last]. exact IH.
Qed.

Lemma nth_first {A : Type} (l : list A) (d : A) : nth 0 l d = hd d l.
Proof. now destruct l. Qed.

Lemma technicals_momentum (closes : list R) :
  let n := length closes in
  let t := technicals closes in
  let first := hd 0 closes in
  let final := last closes 0 in
  ((30 < n < 252)%nat -> Tech.momentum12m t = (final - first) / first)
  /\ ((252 <= n)%nat ->
      Tech.momentum12m t = (final - nth (n - 252) closes 0) / nth (n - 252) closes 0)
  /\ ((n < 126)%nat -> Tech.momentum6m t = 0)
  /\ ((n < 63)%nat -> Tech.momentum3m t = 0).
Proof.
  intros n t first final. unfold t, technicals. fold n. cbv zeta.
  destruct (Nat.ltb_spec 30 n) as [H30 | H30];
    cbn [Tech.momentum12m Tech.momentum6m Tech.momentum3m].
  - repeat split.
    + intros [_ H252]. apply Nat.leb_gt in H252. rewrite H252.
      real_ops. unfold n. now rewrite nth_pred_last, nth_first.
    + intros H252. apply Nat.leb_le in H252. rewrite H252.
      real_ops. unfold n. now rewrite nth_pred_last.
    + intros H126. apply Nat.leb_gt in H126. rewrite H126. real_ops. reflexivity.
    + intros H63. apply Nat.leb_gt in H63. rewrite H63. real_ops. reflexivity.
  - repeat split; intros; try lia; real_ops; reflexivity.
Qed.

(** C10: for a price series of more than 30 and fewer than 252 points,
    the 12-month momentum given to the momentum scorer and to the
    projected return is the return over the whole series,
    (last - first) / first; from 252 points on it is the return over the
    trailing 252 points; the 6-month and 3-month momenta are 0 below 126
    and 63 points. *)
Theorem momentum_windows (data : Data.t R) (r : Rating.t R) :
  handleSearch data = Some r ->
  let closes := closesOf data in
  let n := length closes in
  let t := technicals closes in
  let f := extract data in
  let first := hd 0 closes in
  let final := last closes 0 in
  (Rating.momentumComp r
   = momentumComp (Tech.momentum12m t) (Tech.momentum6m t) (Tech.momentum3m t) (Tech.rsi t)
                  (Tech.macd t) (Tech.ma50 t) (Tech.ma200 t)
                  (Fund.currentPrice f) (Fund.targetMeanPrice f)
   /\ Rating.projReturn r
      = projReturn (Tech.momentum12m t) (Rating.growthComp r) (Rating.valComp r)
                   (Rating.sentimentComp r) (Fund.targetMeanPrice f) (Fund.currentPrice f))
  /\ ((30 < n < 252)%nat -> Tech.momentum12m t = (final - first) / first)
  /\ ((252 <= n)%nat ->
      Tech.momentum12m t = (final - nth (n - 252) closes 0) / nth (n - 252) closes 0)
  /\ ((n < 126)%nat -> Tech.momentum6m t = 0)
  /\ ((n < 63)%nat -> Tech.momentum3m t = 0).
Proof.
  intros E closes n t f first final. apply handleSearch_rate in E. subst r.
  split; [split; reflexivity |].
  apply technicals_momentum.
Qed.

Lemma momentum_windows_witness :
  (exists r : Rating.t R,
     handleSearch short_history = Some r
     /\ Tech.momentum12m (technicals (closesOf short_history)) = (110 - 100) / 100
     /\ Tech.momentum6m (technicals (closesOf short_history)) = 0
     /\ Tech.momentum3m (technicals (closesOf short_history)) = 0)
  /\ (exists r : Rating.t R,
        handleSearch long_history = Some r
        /\ Tech.momentum12m (technicals (closesOf long_history)) = (110 - 100) / 100).
Proof.
  split.
  - exists (rate (extract short_history) (closesOf short_history)
                 (recommendationsOf short_history)).
    destruct (momentum_windows short_history _ eq_refl) as (_ & H12 & _ & H6 & H3).
    split; [reflexivity |].
    split; [| split].
    + apply H12. simpl. lia.
    + apply H6. simpl. lia.
    + apply H3. simpl. lia.
  - exists (rate (extract long_history) (closesOf long_history)
                 (recommendationsOf long_history)).
    destruct (momentum_windows long_history _ eq_refl) as (_ & _ & H252 & _).
    split; [reflexivity |].
    apply H252. simpl. lia.
Defined.

(** ** Runs in binary64

    The same definitions executed in the arithmetic of the JavaScript
    engine, on the inputs used above. *)

Lemma sentiment_binary64 :
  enhancedSentimentScore (T := float) [] = 0.5%float
  /\ enhancedSentimentScore (T := float)
       [{| strongBuy := 7; buy := 0; hold := 3; sell := 0; strongSell := 0 |}] = 1%float
  /\ enhancedSentimentScore (T := float)
       [{| strongBuy := 0; buy := 0; hold := 3; sell := 0; strongSell := 5 |}] = 0%float
  /\ enhancedSentimentScore (T := float)
       [{| strongBuy := 4; buy := 6; hold := 5; sell := 2; strongSell := 0 |}] = 0.75%float.
Proof. repeat split; vm_compute; reflexivity. Qed.

Lemma rsi_binary64 :
  (calculateRSI (T := float) [1; 2] 14 = 50)%float
  /\ (calculateRSI (T := float) [1; 2; 3; 4; 5; 6; 7; 8; 9; 10; 11; 12; 13; 14; 15] 14
      = 100)%float
  /\ (calculateRSI (T := float) [15; 14; 13; 12; 11; 10; 9; 8; 7; 6; 5; 4; 3; 2; 1] 14
      = 0)%float
  /\ (calculateRSI (T := float) [10; 10; 10; 10; 10; 10; 10; 10; 10; 10; 10; 10; 10; 11; 10] 14
      = 50)%float.
Proof. repeat split; vm_compute; reflexivity. Qed.

(** * Further properties of the indicators and of the scoring *)

(** ** The exponential moving average *)

Lemma ema_loop_length {T : Type} `{Number T} (k ema : T) (data : list T) :
  length (ema_loop k ema data) = length data.
Proof.
  revert ema. induction data as [| x data IH]; intros ema; cbn [ema_loop length];
    [reflexivity | now rewrite IH].
Qed.

Lemma calculateEMA_length {T : Type} `{Number T} (data : list T) (period : T) :
  length (calculateEMA data period) = length data.
Proof.
  unfold calculateEMA. destruct data as [| x data]; cbn [length]; [reflexivity |].
  now rewrite ema_loop_length.
Qed.




(** ** MACD *)

Lemma imap_from_length {A B : Type} (f : A -> nat -> B) (i : nat) (l : list A) :
  length (imap_from f i l) = length l.
Proof.
  revert i. induction l as [| x l IH]; intros i; cbn [imap_from length];
    [reflexivity | now rewrite IH].
Qed.

Lemma last_imap_from {A B : Type} (f : A -> nat -> B) (i : nat) (l : list A) (a : A) (b : B) :
  l <> [] -> last (imap_from f i l) b = f (last l a) (i + length l - 1)%nat.
Proof.
  revert i. induction l as [| x l IH]; intros i Hl; [contradiction |].
  destruct l as [| y l].
  - cbn. f_equal. lia.
  - change (imap_from f i (x :: y :: l)) with (f x i :: imap_from f (S i) (y :: l)).
    change (last (f x i :: imap_from f (S i) (y :: l)) b)
      with (last (imap_from f (S i) (y :: l)) b).
    rewrite IH by discriminate.
    change (last (x :: y :: l) a) with (last (y :: l) a).
    f_equal. cbn [length]. lia.
Qed.

(** The histogram MACD reports is its MACD line minus its signal line,
    for every price series; with fewer than 26 prices all three are 0. *)
Theorem macd_histogram (prices : list R) :
  histogram (calculateMACD prices) = macd (calculateMACD prices) - signal (calculateMACD prices)
  /\ ((length prices < 26)%nat ->
      calculateMACD prices = {| macd := 0; signal := 0; histogram := 0 |}).
Proof.
  unfold calculateMACD.
  destruct (Nat.ltb_spec (length prices) 26) as [Hs | Hl].
  - split; [cbn; real_ops; lra | intros _; real_ops; reflexivity].
  - split; [| lia]. cbv zeta. cbn [histogram macd signal]. unfold imap.
    set (ema26 := calculateEMA prices (num 26)).
    set (macdLine := imap_from (fun (val : R) (i : nat) => sub val (nth i ema26 (num 0))) 0
                               (calculateEMA prices (num 12))).
    assert (Hlen : length macdLine = length prices).
    { unfold macdLine. now rewrite imap_from_length, calculateEMA_length. }
    assert (Hne : macdLine <> []).
    { intros E. rewrite E in Hlen. cbn in Hlen. lia. }
    rewrite (last_imap_from _ 0 macdLine 0 (num 0) Hne).
    cbn [Nat.add]. real_ops.
    rewrite <- (calculateEMA_length macdLine 9).
    now rewrite nth_pred_last.
Qed.

Lemma macd_histogram_witness :
  calculateMACD [100; 101; 102] = {| macd := 0; signal := 0; histogram := 0 |}.
Proof.
  destruct (macd_histogram [100; 101; 102]) as (_ & Hshort).
  apply Hshort. simpl. lia.
Defined.

(** ** Bollinger bands *)

Lemma fold_add_real (l : list R) (a : R) :
  fold_left (fun x y : R => add x y) l a = a + Rsum l.
Proof.
  revert a. induction l as [| x l IH]; intros a; cbn [fold_left Rsum fold_right].
  - lra.
  - rewrite IH. real_ops. fold (Rsum l). lra.
Qed.

Lemma sum_real (l : list R) : sum l = Rsum l.
Proof. unfold sum. rewrite fold_add_real. real_ops. lra. Qed.

(** The bands are symmetric around the middle band and never cross; the
    middle band is the mean of the last 20 prices; with fewer than 20
    prices all three are 0. *)
Theorem bollinger_bands_shape (prices : list R) :
  let b := calculateBollingerBands prices 20 (num 2) in
  lower b <= middle b <= upper b
  /\ upper b - middle b = middle b - lower b
  /\ ((length prices < 20)%nat -> b = {| upper := 0; middle := 0; lower := 0 |})
  /\ ((20 <= length prices)%nat -> middle b = Rsum (slice_last 20 prices) / 20).
Proof.
  unfold calculateBollingerBands.
  destruct (Nat.ltb_spec (length prices) 20) as [Hs | Hl]; cbv zeta.
  - cbn [upper middle lower]. real_ops.
    repeat split; try lra. intros; lia.
  - cbn [upper middle lower].
    set (sma := div (sum (slice_last 20 prices)) (fromZ (Z.of_nat 20))).
    set (variance := div (fold_left _ _ _) _).
    pose proof (sqrt_pos variance) as Hsq.
    real_ops. repeat split; try lra.
    + intros; lia.
    + intros _. unfold sma. rewrite sum_real. real_ops.
      cbn [Z.of_nat Pos.of_succ_nat Pos.succ]. reflexivity.
Qed.

Lemma bollinger_bands_shape_witness :
  calculateBollingerBands [100; 101; 102] 20 (num 2) = {| upper := 0; middle := 0; lower := 0 |}
  /\ middle (calculateBollingerBands (repeat 50 25) 20 (num 2))
     = Rsum (slice_last 20 (repeat 50 25)) / 20.
Proof.
  destruct (bollinger_bands_shape [100; 101; 102]) as (_ & _ & Hshort & _).
  destruct (bollinger_bands_shape (repeat 50 25)) as (_ & _ & _ & Hmid).
  split; [apply Hshort | apply Hmid]; simpl; lia.
Defined.

(** ** Max drawdown *)

Lemma decline_mono (a b y : R) : 0 < a <= b -> 0 <= y -> (a - y) / a <= (b - y) / b.
Proof.
  intros Hab Hy.
  assert (Ha : 0 < / a) by (apply Rinv_0_lt_compat; lra).
  assert (Hb : 0 < / b) by (apply Rinv_0_lt_compat; lra).
  assert (Hi : / b <= / a) by (apply Rinv_le_contravar; lra).
  replace ((a - y) / a) with (1 - y * / a) by (field; lra).
  replace ((b - y) / b) with (1 - y * / b) by (field; lra).
  nra.
Qed.

Lemma Rmax_fraction (a b : R) : 0 <= a < 1 -> 0 <= b < 1 -> 0 <= Rmax a b < 1.
Proof. intros Ha Hb. unfold Rmax. destruct (Rle_dec a b); lra. Qed.

Lemma larger_real (a b : R) : (if Rltb a b then b else a) = Rmax a b.
Proof. unfold Rltb, Rmax. destruct (Rlt_dec a b), (Rle_dec a b); lra. Qed.

Lemma drawdown_step_real (m pk x : R) :
  drawdown_step (m, pk) x = (Rmax m ((Rmax pk x - x) / Rmax pk x), Rmax pk x).
Proof.
  unfold drawdown_step. real_ops.
  rewrite (larger_real pk x). now rewrite larger_real.
Qed.

Lemma drawdown_fold_bounds (rest : list R) (m pk : R) :
  Forall (fun x => 0 < x) rest -> 0 < pk -> 0 <= m < 1 ->
  let r := fold_left drawdown_step rest (m, pk) in
  m <= fst r < 1 /\ pk <= snd r.
Proof.
  intros Hp. revert m pk. induction Hp as [| x rest Hx _ IH]; intros m pk Hpk Hm.
  - cbn. lra.
  - cbn [fold_left]. rewrite drawdown_step_real.
    assert (Hmax : pk <= Rmax pk x /\ x <= Rmax pk x)
      by (split; [apply Rmax_l | apply Rmax_r]).
    assert (Hpos : 0 < Rmax pk x) by lra.
    assert (Hdd : 0 <= (Rmax pk x - x) / Rmax pk x < 1).
    { assert (Hi : 0 < / Rmax pk x) by now apply Rinv_0_lt_compat.
      replace ((Rmax pk x - x) / Rmax pk x) with (1 - x * / Rmax pk x) by (field; lra).
      assert (x * / Rmax pk x <= 1).
      { replace 1 with (Rmax pk x * / Rmax pk x) by (field; lra). nra. }
      nra. }
    assert (Hm' : 0 <= Rmax m ((Rmax pk x - x) / Rmax pk x) < 1)
      by (apply Rmax_fraction; lra).
    specialize (IH _ _ Hpos Hm'). cbv zeta in IH.
    assert (m <= Rmax m ((Rmax pk x - x) / Rmax pk x)) by apply Rmax_l.
    cbv zeta. lra.
Qed.

(** Every decline from the running peak, and from any price to a later
    one, is at most the result. *)
Lemma drawdown_fold_covers (rest : list R) (m pk : R) :
  Forall (fun x => 0 < x) rest -> 0 < pk -> 0 <= m < 1 ->
  let r := fold_left drawdown_step rest (m, pk) in
  (forall j : nat, (j < length rest)%nat -> (pk - nth j rest 0) / pk <= fst r)
  /\ (forall i j : nat, (i < j < length rest)%nat ->
        (nth i rest 0 - nth j rest 0) / nth i rest 0 <= fst r).
Proof.
  intros Hp. revert m pk. induction Hp as [| x rest Hx Hrest IH]; intros m pk Hpk Hm.
  - cbn. split; intros; lia.
  - cbn [fold_left]. rewrite drawdown_step_real.
    assert (Hmax : pk <= Rmax pk x /\ x <= Rmax pk x)
      by (split; [apply Rmax_l | apply Rmax_r]).
    assert (Hpos : 0 < Rmax pk x) by lra.
    assert (Hdd : 0 <= (Rmax pk x - x) / Rmax pk x < 1).
    { assert (Hi : 0 < / Rmax pk x) by now apply Rinv_0_lt_compat.
      replace ((Rmax pk x - x) / Rmax pk x) with (1 - x * / Rmax pk x) by (field; lra).
      assert (x * / Rmax pk x <= 1).
      { replace 1 with (Rmax pk x * / Rmax pk x) by (field; lra). nra. }
      nra. }
    assert (Hm' : 0 <= Rmax m ((Rmax pk x - x) / Rmax pk x) < 1)
      by (apply Rmax_fraction; lra).
    destruct (IH _ _ Hpos Hm') as (IHpk & IHpair).
    pose proof (drawdown_fold_bounds rest _ _ Hrest Hpos Hm') as (Hlow & _).
    cbv zeta in *.
    set (r := fold_left drawdown_step rest _) in *.
    assert (Hstep : (Rmax pk x - x) / Rmax pk x <= fst r).
    { assert ((Rmax pk x - x) / Rmax pk x <= Rmax m ((Rmax pk x - x) / Rmax pk x))
        by apply Rmax_r. lra. }
    assert (Hnth : forall j : nat, (j < length rest)%nat -> 0 < nth j rest 0).
    { intros j Hj. rewrite Forall_forall in Hrest. apply Hrest, nth_In, Hj. }
    split.
    + intros [| j] Hj; cbn [nth].
      * pose proof (decline_mono pk (Rmax pk x) x). lra.
      * cbn [length] in Hj. assert (Hj' : (j < length rest)%nat) by lia.
        pose proof (decline_mono pk (Rmax pk x) (nth j rest 0)).
        specialize (IHpk j Hj'). specialize (Hnth j Hj'). lra.
    + intros i j Hij. cbn [length] in Hij.
      destruct j as [| j]; [lia |]. destruct i as [| i]; cbn [nth].
      * assert (Hj' : (j < length rest)%nat) by lia.
        pose proof (decline_mono x (Rmax pk x) (nth j rest 0)).
        specialize (IHpk j Hj'). specialize (Hnth j Hj'). lra.
      * apply IHpair. lia.
Qed.

(** For positive prices the max drawdown is a fraction in [0,1) and is
    at least the relative decline from any price to any later price. *)
Theorem max_drawdown_covers_declines (prices : list R) :
  Forall (fun x => 0 < x) prices ->
  0 <= calculateMaxDrawdown prices < 1
  /\ forall i j : nat, (i < j < length prices)%nat ->
       (nth i prices 0 - nth j prices 0) / nth i prices 0 <= calculateMaxDrawdown prices.
Proof.
  intros Hp. unfold calculateMaxDrawdown.
  destruct prices as [| p0 rest].
  - real_ops. split; [lra | cbn; intros; lia].
  - inversion Hp as [| ? ? Hp0 Hrest]; subst.
    replace (num (T := R) 0) with 0 by (real_ops; reflexivity).
    assert (Hm : 0 <= 0 < 1) by lra.
    pose proof (drawdown_fold_bounds rest 0 p0 Hrest Hp0 Hm) as (Hb & _).
    destruct (drawdown_fold_covers rest 0 p0 Hrest Hp0 Hm) as (Hpk & Hpair).
    cbv zeta in *. split; [lra |].
    intros i j Hij. cbn [length] in Hij.
    destruct j as [| j]; [lia |]. destruct i as [| i]; cbn [nth].
    + apply Hpk. lia.
    + apply Hpair. lia.
Qed.

Lemma max_drawdown_covers_declines_witness :
  0 <= calculateMaxDrawdown [100; 120; 90; 110] < 1
  /\ (120 - 90) / 120 <= calculateMaxDrawdown [100; 120; 90; 110].
Proof.
  assert (Hp : Forall (fun x => 0 < x) [100; 120; 90; 110]) by (repeat constructor; lra).
  destruct (max_drawdown_covers_declines _ Hp) as (Hb & Hd).
  split; [exact Hb |].
  apply (Hd 1%nat 2%nat). simpl. lia.
Defined.

Lemma non_decreasing_tail (x y : R) (l : list R) :
  non_decreasing (x :: y :: l) -> x <= y /\ non_decreasing (y :: l).
Proof.
  intros H. split.
  - apply (H 0%nat). cbn. lia.
  - intros i Hi. apply (H (S i)). cbn [length] in *. lia.
Qed.

Lemma drawdown_fold_rising (rest : list R) (pk : R) :
  non_decreasing (pk :: rest) -> fst (fold_left drawdown_step rest (0, pk)) = 0.
Proof.
  revert pk. induction rest as [| x rest IH]; intros pk Hnd; [reflexivity |].
  apply non_decreasing_tail in Hnd. destruct Hnd as (Hle & Hnd).
  cbn [fold_left]. rewrite drawdown_step_real.
  rewrite (Rmax_right pk x Hle).
  replace ((x - x) / x) with 0 by (unfold Rdiv; rewrite Rminus_diag; now rewrite Rmult_0_l).
  rewrite (Rmax_left 0 0) by lra.
  now apply IH.
Qed.

(** A series that never falls has a max drawdown of 0. *)
Theorem max_drawdown_of_rising_series (prices : list R) :
  non_decreasing prices -> calculateMaxDrawdown prices = 0.
Proof.
  intros Hnd. unfold calculateMaxDrawdown.
  destruct prices as [| p0 rest]; [real_ops; reflexivity |].
  replace (num (T := R) 0) with 0 by (real_ops; reflexivity).
  now apply drawdown_fold_rising.
Qed.

Lemma max_drawdown_of_rising_series_witness : calculateMaxDrawdown [100; 100; 105; 120] = 0.
Proof.
  apply max_drawdown_of_rising_series.
  intros i Hi. do 3 (destruct i as [| i]; [simpl; lra |]). simpl in Hi. lia.
Defined.

(** ** Standard deviation and Sharpe ratio *)





(** ** The technical block on a constant series *)




(** ** More on the sentiment aggregator *)

Lemma total_score_bounds (recs : list Recommendation) :
  (- (2 * total_count recs) <= total_score recs <= 2 * total_count recs)%Z.
Proof.
  induction recs as [| rec recs IH]; cbn [total_score total_count fold_right]; [lia |].
  fold (total_score recs) (total_count recs).
  unfold period_score, period_count. lia.
Qed.

Lemma totals_permutation (recs recs' : list Recommendation) :
  Permutation recs recs' ->
  total_score recs = total_score recs' /\ total_count recs = total_count recs'.
Proof.
  induction 1 as [| rec l l' _ IH | a b l | l l' l'' _ IH1 _ IH2];
    cbn [total_score total_count fold_right] in *.
  - split; reflexivity.
  - fold (total_score l) (total_count l) (total_score l') (total_count l').
    destruct IH as (-> & ->). split; reflexivity.
  - split; lia.
  - destruct IH1 as (-> & ->). exact IH2.
Qed.

Lemma totals_with_hold (h : N) (recs : list Recommendation) :
  total_score (map (with_hold h) recs) = total_score recs
  /\ total_count (map (with_hold h) recs) = total_count recs.
Proof.
  induction recs as [| rec recs (IHs & IHc)]; [split; reflexivity |].
  cbn [map total_score total_count fold_right].
  fold (total_score (map (with_hold h) recs)) (total_count (map (with_hold h) recs))
       (total_score recs) (total_count recs).
  rewrite IHs, IHc. split; reflexivity.
Qed.

(** The sentiment does not depend on the order of the periods nor on the
    hold counts, and its clamp never cuts: with a positive count the
    result is exactly (score / (count * 2) + 1) / 2. *)
Theorem sentiment_invariances (recs : list Recommendation) :
  (forall recs' : list Recommendation,
     Permutation recs recs' ->
     enhancedSentimentScore (T := R) recs' = enhancedSentimentScore recs)
  /\ (forall h : N,
        enhancedSentimentScore (T := R) (map (with_hold h) recs) = enhancedSentimentScore recs)
  /\ ((0 < total_count recs)%Z ->
      enhancedSentimentScore recs
      = (IZR (total_score recs) / (IZR (total_count recs) * 2) + 1) / 2).
Proof.
  split; [| split].
  - intros recs' Hp. rewrite !sentiment_real.
    destruct (totals_permutation recs recs' Hp) as (-> & ->). reflexivity.
  - intros h. rewrite !sentiment_real.
    destruct (totals_with_hold h recs) as (-> & ->). reflexivity.
  - intros Hc. rewrite sentiment_real.
    destruct (Z.eqb_spec (total_count recs) 0) as [E | _]; [lia |].
    fold (clamp01 ((IZR (total_score recs) / (IZR (total_count recs) * 2) + 1) / 2)).
    apply clamp01_id.
    pose proof (total_score_bounds recs) as (Hlo & Hhi).
    apply IZR_le in Hlo, Hhi. rewrite opp_IZR in Hlo. rewrite mult_IZR in Hlo, Hhi.
    assert (Hpos : 0 < IZR (total_count recs)) by (apply (IZR_lt 0); lia).
    assert (Hq : -1 <= IZR (total_score recs) / (IZR (total_count recs) * 2) <= 1).
    { assert (Hi : 0 < / (IZR (total_count recs) * 2)) by (apply Rinv_0_lt_compat; lra).
      assert (He : IZR (total_count recs) * 2 * / (IZR (total_count recs) * 2) = 1)
        by (apply Rinv_r; lra).
      unfold Rdiv. split; nra. }
    lra.
Qed.

Lemma sentiment_invariances_witness :
  enhancedSentimentScore (T := R)
    [{| strongBuy := 1; buy := 2; hold := 9; sell := 1; strongSell := 0 |};
     {| strongBuy := 3; buy := 0; hold := 0; sell := 0; strongSell := 1 |}]
  = enhancedSentimentScore
      [{| strongBuy := 3; buy := 0; hold := 0; sell := 0; strongSell := 1 |};
       {| strongBuy := 1; buy := 2; hold := 9; sell := 1; strongSell := 0 |}]
  /\ enhancedSentimentScore (T := R)
       [{| strongBuy := 3; buy := 1; hold := 4; sell := 0; strongSell := 0 |}]
     = (IZR 7 / (IZR 4 * 2) + 1) / 2.
Proof.
  split.
  - destruct (sentiment_invariances
                [{| strongBuy := 3; buy := 0; hold := 0; sell := 0; strongSell := 1 |};
                 {| strongBuy := 1; buy := 2; hold := 9; sell := 1; strongSell := 0 |}])
      as (Hp & _).
    apply Hp. apply perm_swap.
  - destruct (sentiment_invariances
                [{| strongBuy := 3; buy := 1; hold := 4; sell := 0; strongSell := 0 |}])
      as (_ & _ & Hf).
    apply Hf. reflexivity.
Defined.

(** ** Ranges the scoring keeps *)

Ltac split_ifs :=
  repeat match goal with
  | |- context [if ?c then _ else _] => destruct c
  end.

Lemma momentum_inner_range (m12 m6 m3 rsi : R) (macd : Macd R)
    (ma50 ma200 currentPrice targetMeanPrice : option R) :
  0.075 <= momentumComp m12 m6 m3 rsi macd ma50 ma200 currentPrice targetMeanPrice <= 0.95.
Proof.
  unfold momentumComp. cbv zeta. rewrite clamp_real.
  match goal with
  | |- _ <= clamp01 ?x <= _ => assert (Hx : 0.075 <= x <= 0.95)
  end.
  { split_ifs; abstract_norm; real_ops; lra. }
  rewrite clamp01_id; lra.
Qed.

(** The momentum sub-score always lies between 0.075 and 0.95: its clamp
    to [0,1] never cuts. *)
Theorem momentum_score_range (data : Data.t R) (r : Rating.t R) :
  handleSearch data = Some r -> 0.075 <= Rating.momentumComp r <= 0.95.
Proof.
  intros E. apply handleSearch_rate in E. subst r.
  cbn [rate Rating.momentumComp]. apply momentum_inner_range.
Qed.

Lemma momentum_score_range_witness :
  exists r : Rating.t R,
    handleSearch no_data = Some r /\ 0.075 <= Rating.momentumComp r <= 0.95.
Proof.
  exists (rate (extract no_data) (closesOf no_data) (recommendationsOf no_data)).
  split; [reflexivity | apply (momentum_score_range no_data); reflexivity].
Defined.

(** No rating has a final score below 0.1135 nor fewer than 0.6 stars:
    the lower clamp of the final score never cuts. *)
Theorem rating_floor (data : Data.t R) (r : Rating.t R) :
  handleSearch data = Some r ->
  0.1135 <= Rating.score r <= 1 /\ 0.6 <= Rating.stars r <= 5.
Proof.
  intros E. pose proof (sub_score_ranges data r E) as (Hv & Hg & _ & Hs & Hr).
  apply handleSearch_rate in E.
  destruct (rate_components (extract data) (closesOf data) (recommendationsOf data))
    as (_ & _ & Hm & _ & _ & Hsc & Hst & _).
  rewrite <- E in Hm, Hsc, Hst.
  pose proof (momentum_inner_range
                (Tech.momentum12m (technicals (closesOf data)))
                (Tech.momentum6m (technicals (closesOf data)))
                (Tech.momentum3m (technicals (closesOf data)))
                (Tech.rsi (technicals (closesOf data)))
                (Tech.macd (technicals (closesOf data)))
                (Tech.ma50 (technicals (closesOf data)))
                (Tech.ma200 (technicals (closesOf data)))
                (Fund.currentPrice (extract data))
                (Fund.targetMeanPrice (extract data))) as Hmr.
  rewrite <- Hm in Hmr.
  assert (Hscore : 0.1135 <= Rating.score r <= 1).
  { rewrite Hsc, finalScore_real. split; [| apply clamp01_bounds].
    rewrite <- (clamp01_id 0.1135) at 1 by lra.
    apply clamp01_mono. unfold rawScore. real_ops. lra. }
  split; [exact Hscore |].
  rewrite Hst, toStars_real. rewrite clamp01_id by lra.
  destruct (base_Int_part (Rating.score r * 50 + / 2)) as [Hle Hgt].
  assert (H6 : (5 < Int_part (Rating.score r * 50 + / 2))%Z) by (apply lt_IZR; lra).
  assert (H50 : (Int_part (Rating.score r * 50 + / 2) < 51)%Z) by (apply lt_IZR; lra).
  assert (6 <= IZR (Int_part (Rating.score r * 50 + / 2)) <= 50)
    by (split; [apply (IZR_le 6) | apply (IZR_le _ 50)]; lia).
  lra.
Qed.

Lemma rating_floor_witness :
  exists r : Rating.t R, handleSearch no_data = Some r /\ 0.6 <= Rating.stars r <= 5.
Proof.
  exists (rate (extract no_data) (closesOf no_data) (recommendationsOf no_data)).
  split; [reflexivity |].
  apply (rating_floor no_data). reflexivity.
Defined.

(** A higher score never gets a lower label: the labels follow the order
    High Risk, Cautious, Balanced, Moderate, High Risk-High Reward, with
    "Balanced" or better exactly from a score of 0.5. *)
Theorem risk_label_monotone (s s' : R) :
  (s <= s' -> (label_rank (riskLabelOf s) <= label_rank (riskLabelOf s'))%nat)
  /\ ((2 <= label_rank (riskLabelOf s))%nat <-> (0.5 <= s)%R).
Proof.
  unfold riskLabelOf. real_ops. split.
  - intros Hs. decide_cmp; cbn [label_rank]; lia.
  - decide_cmp; cbn [label_rank]; split; intros; try lia; lra.
Qed.

Lemma risk_label_monotone_witness :
  (label_rank (riskLabelOf 0.4%R) <= label_rank (riskLabelOf 0.9%R))%nat.
Proof.
  destruct (risk_label_monotone 0.4 0.9) as (Hm & _). apply Hm. lra.
Defined.

(** ** Metrics that are not positive *)

Lemma known_positive_part (x : option R) : known_positive (positive_part x) = known_positive x.
Proof.
  destruct x as [v |]; [| reflexivity]. unfold positive_part, known_positive.
  real_ops. unfold Rltb. destruct (Rlt_dec 0 v) as [Hv | Hv]; [| reflexivity].
  destruct (Rlt_dec 0 v); [reflexivity | contradiction].
Qed.

(** The valuation treats a P/E, forward P/E, P/B, P/S or ROE that is not
    positive as missing, and the growth does so for the free cash flow,
    whereas the confidence counts a known P/E and P/B whatever their
    sign. *)
Theorem non_positive_metrics (pe forwardPE pb ps roe : option R) :
  valComp pe forwardPE pb ps roe
  = valComp (positive_part pe) (positive_part forwardPE) (positive_part pb)
            (positive_part ps) (positive_part roe)
  /\ (forall earningsGrowth revenueGrowth freeCashflow : option R,
        growthComp earningsGrowth revenueGrowth freeCashflow roe
        = growthComp earningsGrowth revenueGrowth (positive_part freeCashflow) roe)
  /\ (forall (closes : list R) (recs : list Recommendation) (v w : R)
             (earningsGrowth targetMeanPrice : option R),
        confidence closes recs (Some v) (Some w) earningsGrowth targetMeanPrice
        = Z.min 95 (confidence closes recs None None earningsGrowth targetMeanPrice + 10)).
Proof.
  split; [| split].
  - unfold valComp. now rewrite !known_positive_part.
  - intros. unfold growthComp. now rewrite known_positive_part.
  - intros. unfold confidence. cbn [known andb].
    destruct (200 <=? length closes)%nat, (3 <=? length recs)%nat,
             (known earningsGrowth), (known targetMeanPrice); lia.
Qed.

Lemma non_positive_metrics_witness :
  valComp (Some (-4)) None (Some 2) None (Some 0) = valComp None None (Some 2) None None.
Proof.
  destruct (non_positive_metrics (Some (-4)) None (Some 2) None (Some 0)) as (Hv & _).
  etransitivity; [exact Hv |].
  unfold positive_part.
  destruct (Rlt_dec 0 (-4)); [lra |]. destruct (Rlt_dec 0 2); [| lra].
  destruct (Rlt_dec 0 0); [lra | reflexivity].
Defined.

(** ** RSI of a falling series *)

Lemma gains_zero_of_negative (cs : list R) : Forall (fun c => c < 0) cs -> gains_of cs = 0.
Proof.
  unfold gains_of. induction 1 as [| c cs Hc _ IH]; simpl; [reflexivity |].
  assert (E : Rltb 0 c = false) by (apply Rltb_false; lra).
  now rewrite E.
Qed.

Lemma losses_pos_of_negative (cs : list R) :
  cs <> [] -> Forall (fun c => c < 0) cs -> 0 < losses_of cs.
Proof.
  intros Hne H. pose proof (losses_nonneg (tl cs)) as Htl.
  destruct H as [| c cs Hc _]; [contradiction |].
  unfold losses_of in *. cbn [filter tl] in *.
  assert (E : Rltb c 0 = true) by (apply Rltb_true; lra).
  rewrite E. cbn [map Rsum fold_right]. fold (Rsum (map Rabs (filter (fun c0 => Rltb c0 0) cs))).
  rewrite Rabs_left by lra. lra.
Qed.

Lemma decreasing_changes (prices : list R) :
  (15 <= length prices)%nat -> strictly_decreasing prices ->
  Forall (fun c => c < 0) (trailing_changes prices 14).
Proof.
  intros Hlen Hdec. unfold trailing_changes.
  apply Forall_forall. intros c Hc.
  apply in_map_iff in Hc. destruct Hc as (i & <- & Hi).
  apply in_seq in Hi. unfold change.
  specialize (Hdec (i - 1)%nat).
  replace (S (i - 1)) with i in Hdec by lia.
  assert (nth i prices 0 < nth (i - 1) prices 0) by (apply Hdec; lia).
  lra.
Qed.

(** On a series of 15 or more prices that falls at every step the RSI
    is 0. *)
Theorem rsi_of_falling_series (prices : list R) :
  (15 <= length prices)%nat -> strictly_decreasing prices -> calculateRSI prices 14 = 0.
Proof.
  intros Hlen Hdec. rewrite calculateRSI_real.
  pose proof Hlen as Hlen'. apply Nat.ltb_ge in Hlen'. rewrite Hlen'.
  pose proof (decreasing_changes prices Hlen Hdec) as Hneg.
  assert (Hne : trailing_changes prices 14 <> []).
  { unfold trailing_changes. cbn [seq map]. discriminate. }
  pose proof (losses_pos_of_negative _ Hne Hneg) as Hl.
  unfold avg_loss, avg_gain. rewrite (gains_zero_of_negative _ Hneg).
  replace (INR 14) with 14 by (simpl; lra).
  destruct (Req_dec_T (losses_of (trailing_changes prices 14) / 14) 0) as [E | _]; [lra |].
  unfold Rdiv at 2 3. rewrite Rmult_0_l, Rmult_0_l, Rplus_0_r.
  lra.
Qed.

Lemma rsi_of_falling_series_witness : calculateRSI falling15 14 = 0.
Proof.
  apply rsi_of_falling_series; [simpl; lia |].
  intros i Hi. unfold falling15 in *.
  do 14 (destruct i as [| i]; [simpl; lra |]).
  simpl in Hi. lia.
Defined.

(** ** Rows of the history without a closing price *)

Lemma closes_of_rows (historical : list (option R)) :
  map the (rows_with_close (rows_with_close historical)) = map the (rows_with_close historical).
Proof.
  unfold rows_with_close. f_equal.
  induction historical as [| [c |] l IH]; cbn [filter]; [reflexivity | | exact IH].
  now rewrite IH.
Qed.

(** Rows without a closing price do not count: the result is the same
    as for the history without them, and a missing history is an empty
    one. *)
Theorem rows_without_close_ignored (quote : option (Quote.t R))
    (quoteSummary : option (Summary.t R)) (price marketCap : option R)
    (historical : list (option R)) :
  handleSearch {| Data.quote := quote; Data.quoteSummary := quoteSummary;
                  Data.price := price; Data.marketCap := marketCap;
                  Data.historical := Some historical |}
  = handleSearch {| Data.quote := quote; Data.quoteSummary := quoteSummary;
                    Data.price := price; Data.marketCap := marketCap;
                    Data.historical := Some (rows_with_close historical) |}
  /\ handleSearch {| Data.quote := quote; Data.quoteSummary := quoteSummary;
                     Data.price := price; Data.marketCap := marketCap;
                     Data.historical := None |}
     = handleSearch {| Data.quote := quote; Data.quoteSummary := quoteSummary;
                       Data.price := price; Data.marketCap := marketCap;
                       Data.historical := Some [] |}.
Proof.
  split; [| reflexivity].
  unfold handleSearch, closesOf. cbn [Data.quote Data.quoteSummary Data.historical].
  fold (rows_with_close historical) (rows_with_close (rows_with_close historical)).
  rewrite closes_of_rows. reflexivity.
Qed.

(** ** Valuation and the P/E *)

Lemma inverse_order (a b : R) : 0 < a <= b -> 1 / b <= 1 / a.
Proof.
  intros H. unfold Rdiv. rewrite !Rmult_1_l. apply Rinv_le_contravar; lra.
Qed.

(** All else equal, a lower positive P/E never gives a lower valuation
    sub-score. *)
Theorem valuation_monotone_in_pe (pe pe' : R) (forwardPE pb ps roe : option R) :
  0 < pe <= pe' ->
  valComp (Some pe') forwardPE pb ps roe <= valComp (Some pe) forwardPE pb ps roe.
Proof.
  intros Hpe. unfold valComp. cbn [known_positive].
  assert (E : ltb (num 0) pe = true) by (real_ops; apply Rltb_true; lra).
  assert (E' : ltb (num 0) pe' = true) by (real_ops; apply Rltb_true; lra).
  rewrite E, E'.
  pose proof (normalize_mono (div (num 1) pe') (div (num 1) pe)
                (div (num 1) (num 50)) (div (num 1) (num 5))) as Hn.
  assert (Hle : normalize (div (num 1) pe') (div (num 1) (num 50)) (div (num 1) (num 5))
                <= normalize (div (num 1) pe) (div (num 1) (num 50)) (div (num 1) (num 5))).
  { apply Hn; real_ops; [lra | now apply inverse_order]. }
  clear Hn.
  split_option forwardPE; split_option pb; split_option ps; split_option roe;
    cbv zeta beta iota; abstract_norm; real_ops; eval_cmp; lra.
Qed.

Lemma valuation_monotone_in_pe_witness :
  valComp (Some 30) None (Some 2) None None <= valComp (Some 12) None (Some 2) None None.
Proof. apply valuation_monotone_in_pe. lra. Defined.

(** * The watchlist and the ticker symbol *)

Section WatchlistFacts.

Import String.

Lemma includes_In (l : list String.string) (sym : String.string) :
  Watchlist.includes l sym = true <-> In sym l.
Proof.
  unfold Watchlist.includes. rewrite existsb_exists. split.
  - intros (s & Hs & E). apply String.eqb_eq in E. now subst.
  - intros H. exists sym. split; [exact H | apply String.eqb_refl].
Qed.

Lemma remove_In (l : list String.string) (sym s : String.string) :
  In s (filter (fun x => negb (String.eqb x sym)) l) <-> In s l /\ s <> sym.
Proof.
  rewrite filter_In. split; intros (Hin & H); split; try exact Hin.
  - intros ->. now rewrite String.eqb_refl in H.
  - apply Bool.negb_true_iff. now apply String.eqb_neq.
Qed.

(** Membership after the two operations: adding puts the symbol in and
    removing takes it out, and neither touches another symbol. *)
Theorem watchlist_membership (st : Watchlist.Store) (sym s : String.string) :
  (In s (Watchlist.watchlist (Watchlist.addToWatchlist st sym))
   <-> In s (Watchlist.watchlist st) \/ s = sym)
  /\ (In s (Watchlist.watchlist (Watchlist.removeFromWatchlist st sym))
      <-> In s (Watchlist.watchlist st) /\ s <> sym).
Proof.
  split.
  - unfold Watchlist.addToWatchlist.
    destruct (Watchlist.includes (Watchlist.watchlist st) sym) eqn:E; cbn.
    + apply includes_In in E. split; [now left | intros [H | ->]; assumption].
    + rewrite in_app_iff. cbn. split; intros [H | H]; auto.
      destruct H as [-> | []]. now right.
  - cbn. apply remove_In.
Qed.

Lemma filter_absent (l : list String.string) (sym : String.string) :
  ~ In sym l -> filter (fun x => negb (String.eqb x sym)) l = l.
Proof.
  induction l as [| x l IH]; intros Hn; cbn [filter]; [reflexivity |].
  destruct (String.eqb_spec x sym) as [-> | _]; cbn [negb].
  - exfalso. apply Hn. now left.
  - rewrite IH; [reflexivity |]. intros H. apply Hn. now right.
Qed.

(** Adding a symbol that is already listed changes nothing, so adding
    twice is adding once; removing a symbol that was just added to a
    list without it gives the list back. *)
Theorem watchlist_add_remove (st : Watchlist.Store) (sym : String.string) :
  Watchlist.addToWatchlist (Watchlist.addToWatchlist st sym) sym
  = Watchlist.addToWatchlist st sym
  /\ (In sym (Watchlist.watchlist st) -> Watchlist.addToWatchlist st sym = st)
  /\ (~ In sym (Watchlist.watchlist st) ->
      Watchlist.watchlist (Watchlist.removeFromWatchlist (Watchlist.addToWatchlist st sym) sym)
      = Watchlist.watchlist st).
Proof.
  assert (Hin : In sym (Watchlist.watchlist st) -> Watchlist.addToWatchlist st sym = st).
  { intros H. unfold Watchlist.addToWatchlist.
    now rewrite (proj2 (includes_In _ _) H). }
  split; [| split; [exact Hin |]].
  - destruct (Watchlist.includes (Watchlist.watchlist st) sym) eqn:E.
    + apply includes_In in E. now rewrite !(Hin E).
    + assert (Hs : Watchlist.includes (Watchlist.watchlist st ++ [sym]) sym = true)
        by (apply includes_In, in_app_iff; right; now left).
      unfold Watchlist.addToWatchlist. rewrite E. cbn [negb Watchlist.watchlist].
      now rewrite Hs.
  - intros Hn. unfold Watchlist.addToWatchlist.
    assert (E : Watchlist.includes (Watchlist.watchlist st) sym = false).
    { destruct (Watchlist.includes (Watchlist.watchlist st) sym) eqn:E; [| reflexivity].
      apply includes_In in E. contradiction. }
    rewrite E. cbn. rewrite filter_app. cbn [filter].
    rewrite String.eqb_refl. cbn [negb]. rewrite app_nil_r.
    now apply filter_absent.
Qed.

Lemma watchlist_add_remove_witness :
  Watchlist.watchlist
    (Watchlist.removeFromWatchlist
       (Watchlist.addToWatchlist (Watchlist.mount (Some ["TCS"%string])) "INFY"%string) "INFY"%string)
  = ["TCS"%string].
Proof.
  destruct (watchlist_add_remove (Watchlist.mount (Some ["TCS"%string])) "INFY"%string)
    as (_ & _ & Hr).
  apply Hr. cbn. intros [H | []]. discriminate H.
Defined.

Lemma step_keeps (st : Watchlist.Store) (a : Watchlist.Action) :
  (Watchlist.watchlist (Watchlist.mount (Watchlist.saved st)) = Watchlist.watchlist st ->
   Watchlist.watchlist (Watchlist.mount (Watchlist.saved (Watchlist.step st a)))
   = Watchlist.watchlist (Watchlist.step st a))
  /\ (NoDup (Watchlist.watchlist st) -> NoDup (Watchlist.watchlist (Watchlist.step st a))).
Proof.
  destruct a as [sym | sym]; cbn [Watchlist.step].
  - unfold Watchlist.addToWatchlist.
    destruct (Watchlist.includes (Watchlist.watchlist st) sym) eqn:E; cbn [negb].
    + split; intros; assumption.
    + split; [reflexivity |]. intros Hnd. cbn [Watchlist.watchlist].
      apply NoDup_app; [exact Hnd | repeat constructor; intros [] |].
      intros x Hx [<- | []].
      apply includes_In in Hx. rewrite Hx in E. discriminate E.
  - split; [reflexivity |]. intros Hnd. cbn. now apply NoDup_filter.
Qed.

(** Whatever the stored list at mount and whatever symbols are then
    added and removed, mounting again from the storage restores the
    list on display; and a list without duplicates stays without. *)
Theorem watchlist_persistence (saved : option (list String.string))
    (actions : list Watchlist.Action) :
  let st := Watchlist.run (Watchlist.mount saved) actions in
  Watchlist.watchlist (Watchlist.mount (Watchlist.saved st)) = Watchlist.watchlist st
  /\ (NoDup (Watchlist.watchlist (Watchlist.mount saved)) -> NoDup (Watchlist.watchlist st)).
Proof.
  unfold Watchlist.run.
  assert (Hgen : forall st0 : Watchlist.Store,
            Watchlist.watchlist (Watchlist.mount (Watchlist.saved st0))
            = Watchlist.watchlist st0 ->
            let st := fold_left Watchlist.step actions st0 in
            Watchlist.watchlist (Watchlist.mount (Watchlist.saved st)) = Watchlist.watchlist st
            /\ (NoDup (Watchlist.watchlist st0) -> NoDup (Watchlist.watchlist st))).
  { induction actions as [| a actions IH]; intros st0 H0; cbn [fold_left].
    - split; [exact H0 | auto].
    - destruct (step_keeps st0 a) as (Hs & Hn).
      destruct (IH (Watchlist.step st0 a) (Hs H0)) as (IH1 & IH2).
      split; [exact IH1 | auto]. }
  apply Hgen. reflexivity.
Qed.

Lemma watchlist_persistence_witness :
  NoDup (Watchlist.watchlist
           (Watchlist.run (Watchlist.mount None)
              [Watchlist.Add "TCS"%string; Watchlist.Add "INFY"%string; Watchlist.Add "TCS"%string;
               Watchlist.Remove "INFY"%string])).
Proof.
  destruct (watchlist_persistence None
              [Watchlist.Add "TCS"%string; Watchlist.Add "INFY"%string; Watchlist.Add "TCS"%string;
               Watchlist.Remove "INFY"%string]) as (_ & Hn).
  apply Hn. constructor.
Defined.

Lemma endsWith_refl (s : String.string) : Watchlist.endsWith s s = true.
Proof. destruct s; cbn [Watchlist.endsWith]; now rewrite String.eqb_refl. Qed.

Lemma endsWith_append (s suffix : String.string) :
  Watchlist.endsWith (String.append s suffix) suffix = true.
Proof.
  induction s as [| c s IH]; cbn [String.append]; [apply endsWith_refl |].
  cbn [Watchlist.endsWith]. rewrite IH. now destruct (String.eqb _ _).
Qed.

(** The exchange suffix is given once: the result ends with ".NS"%string or
    ".BO"%string or consists of the letters A to Z only, a symbol of one of
    these forms is left as it is, and suffixing again changes nothing. *)
Theorem exchange_suffix_idempotent (sym : String.string) :
  let is_final (s : String.string) :=
    Watchlist.endsWith s ".NS"%string || Watchlist.endsWith s ".BO"%string || Watchlist.letters_only s in
  is_final (Watchlist.withExchange sym) = true
  /\ (is_final sym = true -> Watchlist.withExchange sym = sym)
  /\ (is_final sym = false -> Watchlist.withExchange sym = String.append sym ".NS"%string)
  /\ Watchlist.withExchange (Watchlist.withExchange sym) = Watchlist.withExchange sym.
Proof.
  intros is_final.
  assert (Hfix : forall s : String.string, is_final s = true -> Watchlist.withExchange s = s).
  { intros s. unfold is_final, Watchlist.withExchange.
    destruct (Watchlist.endsWith s ".NS"%string), (Watchlist.endsWith s ".BO"%string),
             (Watchlist.letters_only s); cbn; intros H; try reflexivity; discriminate H. }
  assert (Hfinal : is_final (Watchlist.withExchange sym) = true).
  { unfold Watchlist.withExchange.
    destruct (Watchlist.endsWith sym ".NS"%string) eqn:E1; cbn [negb andb];
      [unfold is_final; now rewrite E1 |].
    destruct (Watchlist.endsWith sym ".BO"%string) eqn:E2; cbn [negb andb];
      [unfold is_final; now rewrite E1, E2 |].
    destruct (Watchlist.letters_only sym) eqn:E3; cbn [negb];
      [unfold is_final; now rewrite E1, E2, E3 |].
    unfold is_final. now rewrite endsWith_append. }
  split; [exact Hfinal |]. split; [apply Hfix |]. split.
  - unfold is_final, Watchlist.withExchange.
    destruct (Watchlist.endsWith sym ".NS"%string), (Watchlist.endsWith sym ".BO"%string),
             (Watchlist.letters_only sym); cbn; intros H; try reflexivity; discriminate H.
  - apply Hfix, Hfinal.
Qed.

Lemma exchange_suffix_idempotent_witness :
  Watchlist.withExchange "TCS"%string = "TCS"%string
  /\ Watchlist.withExchange "RELIANCE.BO"%string = "RELIANCE.BO"%string
  /\ Watchlist.withExchange "M&M"%string = "M&M.NS"%string.
Proof.
  destruct (exchange_suffix_idempotent "TCS"%string) as (_ & H1 & _).
  destruct (exchange_suffix_idempotent "RELIANCE.BO"%string) as (_ & H2 & _).
  destruct (exchange_suffix_idempotent "M&M"%string) as (_ & _ & H3 & _).
  split; [apply H1; reflexivity |].
  split; [apply H2; reflexivity | apply H3; reflexivity].
Defined.

End WatchlistFacts.
